(** * Munich Path: the goal-evaluation and consequence engine

    A shallow embedding of [database/db_manager.py],
    [services/goal_service.py] and the check-in, lock-screen and settings
    handlers of [app.py] and [api/routes.py], with the properties of the
    streak, lock, penalty and achievement logic stated over it.

    Modelling conventions.
    - A [datetime.date] is its proleptic ordinal (a [Z]);
      [d + timedelta(days=n)] is [d + n].  The TEXT form written by
      [strftime('%Y-%m-%d')] is in bijection with the date, so a column
      holding it stores the date itself.
    - A Python float (SQLite REAL) is a rational [Q]; the literals [2.0],
      [3.0], [10.0], [20.0], [50.0] are the rationals 2, 3, 10, 20, 50.
    - A Python or SQLite integer is a [Z].
    - [None] for an argument that the schema declares NOT NULL is kept
      ([option]) so that the IntegrityError handlers are reachable.
    - Every db_manager function opens its own connection, executes and
      commits: the database is threaded through a state monad whose state
      also records each committed snapshot and an oracle for the
      [sqlite3.Error]s the environment injects (one entry per
      db_manager call). *)

From Stdlib Require Import ZArith QArith String List Lia Bool Sorted.
From stdpp Require Import base option list gmap strings.

Local Open Scope Z_scope.

(** ** Dates *)

Definition date := Z.

Definition timedelta_days (d : date) (n : Z) : date := d + n.

(** ** Tables of [init_database] *)

Module Users.
(** The columns of [users] that the engine reads or writes, with the
    identity columns; the credential, session and API-key columns are
    touched by none of the statements below. *)
Record row := mk {
  id : Z;
  email : string;
  name : string;
  total_streak : Z;
  current_streak : Z;
  last_checkin : option date;
  money_at_risk : Q;
  is_locked : Z;
  lock_end_date : option date
}.
End Users.

Module DailyGoals.
Record row := mk {
  id : Z;
  user_id : Z;
  date_ : date;
  german_hours : Q;
  tech_hours : Q;
  applications_sent : Z;
  words_learned : Z;
  checkin_completed : Z
}.
End DailyGoals.

Module Achievements.
Record row := mk {
  id : Z;
  user_id : Z;
  achievement_name : string;
  date_earned : date
}.
End Achievements.

Module Penalties.
Record row := mk {
  id : Z;
  user_id : Z;
  amount : Q;
  reason : string;
  date_ : date;
  paid : Z
}.
End Penalties.

Record DB := mkDB {
  users : gmap Z Users.row;
  daily_goals : list DailyGoals.row;
  achievements : list Achievements.row;
  penalties : list Penalties.row
}.

(** [id INTEGER PRIMARY KEY] without a value: SQLite assigns one more
    than the largest rowid in the table, 1 for an empty table. *)
Definition next_rowid (ids : list Z) : Z := foldr Z.max 0 ids + 1.

(** ** The store: current tables, committed snapshots, injected faults *)

Record World := mkWorld {
  tables : DB;
  commits : list DB;
  faults : list bool
}.

Definition M (A : Type) : Type := World -> A * World.

Definition ret {A} (a : A) : M A := fun w => (a, w).

Definition bind {A B} (c : M A) (k : A -> M B) : M B :=
  fun w => let (a, w') := c w in k a w'.

Notation "'call' x <- c ;; k" := (bind c (fun x => k))
  (at level 10, x name, c at level 99, k at level 200).
Notation "'exec' c ;; k" := (bind c (fun _ => k))
  (at level 10, c at level 99, k at level 200).

Definition result {A} (c : M A) (w : World) : A := fst (c w).
Definition after {A} (c : M A) (w : World) : World := snd (c w).

(** The next db_manager call meets a [sqlite3.Error] raised by the
    environment (file locked, disk I/O) when the head of [faults] is
    [true]; an exhausted oracle means no further fault. *)
Definition store_fault : M bool := fun w =>
  match faults w with
  | [] => (false, w)
  | f :: fs => (f, mkWorld (tables w) (commits w) fs)
  end.

Definition query {A} (q : DB -> A) : M A := fun w => (q (tables w), w).

(** [conn.commit()]: the tables become the new committed snapshot. *)
Definition commit (d : DB) : M unit := fun w =>
  (tt, mkWorld d (d :: commits w) (faults w)).

(** ** db_manager *)

Definition get_user (user_id : Z) : M (option Users.row) :=
  call bad <- store_fault ;;
  if bad then ret None
  else query (fun d => users d !! user_id).

Definition same_day (user_id : Z) (day : date) (r : DailyGoals.row) : bool :=
  (DailyGoals.user_id r =? user_id) && (DailyGoals.date_ r =? day).

Definition log_daily_goals_db (user_id : Z) (day : date)
    (german_hours tech_hours : Q) (applications_sent words_learned : Z)
    (checkin_completed : Z) : M bool :=
  call bad <- store_fault ;;
  if bad then ret false
  else
    call d <- query (fun d => d) ;;
    let existing := head (filter (fun r => same_day user_id day r = true) (daily_goals d)) in
    let rows :=
      match existing with
      | Some _ =>
          map (fun r =>
                 if same_day user_id day r
                 then DailyGoals.mk (DailyGoals.id r) (DailyGoals.user_id r)
                        (DailyGoals.date_ r) german_hours tech_hours
                        applications_sent words_learned checkin_completed
                 else r)
              (daily_goals d)
      | None =>
          daily_goals d ++
          [DailyGoals.mk (next_rowid (map DailyGoals.id (daily_goals d)))
             user_id day german_hours tech_hours applications_sent
             words_learned checkin_completed]
      end in
    exec commit (mkDB (users d) rows (achievements d) (penalties d)) ;;
    ret true.

Definition get_daily_goal_completion_status (user_id : Z) (day : date) : M bool :=
  call bad <- store_fault ;;
  if bad then ret false
  else
    query (fun d =>
      match head (filter (fun r => same_day user_id day r = true) (daily_goals d)) with
      | Some r => DailyGoals.checkin_completed r =? 1
      | None => false
      end).

Definition update_user_streak_data (user_id : Z) (current_streak total_streak : Z)
    (is_locked : Z) (lock_end_date : option date) (last_checkin : option date) : M bool :=
  call bad <- store_fault ;;
  if bad then ret false
  else
    call d <- query (fun d => d) ;;
    exec commit (mkDB
      (alter (fun u => Users.mk (Users.id u) (Users.email u) (Users.name u)
                         total_streak current_streak last_checkin
                         (Users.money_at_risk u) is_locked lock_end_date)
             user_id (users d))
      (daily_goals d) (achievements d) (penalties d)) ;;
    ret true.

Definition unlock_app_db (user_id : Z) : M bool :=
  call bad <- store_fault ;;
  if bad then ret false
  else
    call d <- query (fun d => d) ;;
    exec commit (mkDB
      (alter (fun u => Users.mk (Users.id u) (Users.email u) (Users.name u)
                         (Users.total_streak u) (Users.current_streak u)
                         (Users.last_checkin u) (Users.money_at_risk u) 0 None)
             user_id (users d))
      (daily_goals d) (achievements d) (penalties d)) ;;
    ret true.

Definition reset_streak_and_unlock_db (user_id : Z) : M bool :=
  call bad <- store_fault ;;
  if bad then ret false
  else
    call d <- query (fun d => d) ;;
    exec commit (mkDB
      (alter (fun u => Users.mk (Users.id u) (Users.email u) (Users.name u)
                         (Users.total_streak u) 0
                         (Users.last_checkin u) (Users.money_at_risk u) 0 None)
             user_id (users d))
      (daily_goals d) (achievements d) (penalties d)) ;;
    ret true.

(** [INSERT INTO achievements]: the table declares NOT NULL on
    [achievement_name] and [date_earned] and no UNIQUE constraint; the
    FOREIGN KEY clause is not enforced (the connection never sets
    [PRAGMA foreign_keys]).  [None] is the IntegrityError. *)
Definition insert_achievement (d : DB) (user_id : Z)
    (achievement_name : option string) (date_earned : date) : option DB :=
  match achievement_name with
  | None => None
  | Some n =>
      Some (mkDB (users d) (daily_goals d)
              (achievements d ++
               [Achievements.mk (next_rowid (map Achievements.id (achievements d)))
                  user_id n date_earned])
              (penalties d))
  end.

Definition add_achievement_db (user_id : Z) (achievement_name : option string)
    (date_earned : date) : M bool :=
  call bad <- store_fault ;;
  if bad then ret false
  else
    call d <- query (fun d => d) ;;
    match insert_achievement d user_id achievement_name date_earned with
    | Some d' => exec commit d' ;; ret true
    | None => ret false
    end.

(** [INSERT INTO penalties]: NOT NULL on [amount], [reason] and [date],
    [paid] defaults to 0; no CHECK constraint on [amount]. *)
Definition insert_penalty (d : DB) (user_id : Z) (amount : option Q)
    (reason : option string) (day : date) : option DB :=
  match amount, reason with
  | Some a, Some r =>
      Some (mkDB (users d) (daily_goals d) (achievements d)
              (penalties d ++
               [Penalties.mk (next_rowid (map Penalties.id (penalties d)))
                  user_id a r day 0]))
  | _, _ => None
  end.

Definition add_penalty_db (user_id : Z) (amount : option Q)
    (reason : option string) (day : date) : M bool :=
  call bad <- store_fault ;;
  if bad then ret false
  else
    call d <- query (fun d => d) ;;
    match insert_penalty d user_id amount reason day with
    | Some d' => exec commit d' ;; ret true
    | None => ret false
    end.

(** ** goal_service *)

(** The daily minimums of [log_daily_goals]. *)
Definition required_german_hours : Q := 2.
Definition required_tech_hours : Q := 3.
Definition required_applications_sent : Z := 5.
Definition required_words_learned : Z := 50.

Definition goals_met (german_hours tech_hours : Q)
    (applications_sent words_learned : Z) : bool :=
  Qle_bool required_german_hours german_hours &&
  Qle_bool required_tech_hours tech_hours &&
  (required_applications_sent <=? applications_sent) &&
  (required_words_learned <=? words_learned).

Definition add_penalty (today : date) (user_id : Z) (amount : option Q)
    (reason : option string) : M bool :=
  add_penalty_db user_id amount reason today.

Definition add_achievement (today : date) (user_id : Z)
    (achievement_name : option string) : M bool :=
  add_achievement_db user_id achievement_name today.

Definition unlock_app (user_id : Z) : M bool := unlock_app_db user_id.

Definition reset_streak_and_unlock (user_id : Z) : M bool :=
  reset_streak_and_unlock_db user_id.

Definition check_daily_completion (today : date) (user_id : Z) : M bool :=
  get_daily_goal_completion_status user_id today.

Definition update_user_streak (today : date) (user_id : Z)
    (streak_broken : bool) : M bool :=
  call user <- get_user user_id ;;
  match user with
  | None => ret false
  | Some user =>
      let current_streak := Users.current_streak user in
      let total_streak := Users.total_streak user in
      let is_locked := Users.is_locked user in
      let lock_end_date : option date := None in
      let last_checkin := today in
      if streak_broken
      then update_user_streak_data user_id 0 total_streak 1
             (Some (timedelta_days today 1)) (Some last_checkin)
      else update_user_streak_data user_id (current_streak + 1)
             (total_streak + 1) is_locked lock_end_date (Some last_checkin)
  end.

Definition log_daily_goals (today : date) (user_id : Z)
    (german_hours tech_hours : Q) (applications_sent words_learned : Z)
    : M (bool * string) :=
  let met := goals_met german_hours tech_hours applications_sent words_learned in
  let checkin_completed := if met then 1 else 0 in
  call success <- log_daily_goals_db user_id today german_hours tech_hours
                    applications_sent words_learned checkin_completed ;;
  if success then
    if met then
      exec update_user_streak today user_id false ;;
      ret (true, "Daily goals completed!"%string)
    else
      exec update_user_streak today user_id true ;;
      exec add_penalty today user_id (Some 10%Q) (Some "Daily goals not met"%string) ;;
      ret (false, "Daily goals not met. App locked for 24 hours and penalty applied."%string)
  else ret (false, "Failed to log daily goals."%string).

(** ** api/routes.py: [api_checkin]

    The metrics read from the request and the call of the service;
    session validation before it and the JSON response after it belong
    to the transport. *)

(** The JSON object of the request; an absent key is [None]. *)
Record checkin_json := mkCheckinJson {
  json_german_hours : option Q;
  json_tech_hours : option Q;
  json_applications_sent : option Z;
  json_words_learned : option Z
}.

(** [data.get(key, default)]. *)
Definition dict_get {A} (v : option A) (dflt : A) : A :=
  match v with Some x => x | None => dflt end.

Definition api_checkin (today : date) (user_id : Z) (data : checkin_json)
    : M (bool * string) :=
  let german_hours := dict_get (json_german_hours data) 0%Q in
  let tech_hours := dict_get (json_tech_hours data) 0%Q in
  let applications_sent := dict_get (json_applications_sent data) 0 in
  let words_learned := dict_get (json_words_learned data) 0 in
  log_daily_goals today user_id german_hours tech_hours applications_sent words_learned.

(** ** Python calls with keyword arguments *)

Inductive pyval :=
  | PyInt (n : Z)
  | PyFloat (q : Q).

Inductive type_error :=
  | UnexpectedKeyword (name : string)
  | MultipleValues (name : string)
  | TooManyPositional
  | MissingArguments (names : list string).

Inductive py_exn := TypeError (e : type_error).

(** What a call yields.  [Unmodelled]: the bound arguments leave the
    parameter types the docstring declares (a float where a count is
    expected), for which the typed embedding has no value. *)
Inductive outcome (A : Type) :=
  | Returned (a : A)
  | Raised (e : py_exn)
  | Unmodelled.
Arguments Returned {A} a.
Arguments Raised {A} e.
Arguments Unmodelled {A}.

Fixpoint assoc (k : string) (l : list (string * pyval)) : option pyval :=
  match l with
  | [] => None
  | (k', v) :: l' => if String.eqb k' k then Some v else assoc k l'
  end.

Definition has_name (k : string) (names : list string) : bool :=
  existsb (String.eqb k) names.

Fixpoint bind_positional (params : list string) (args : list pyval)
    : list (string * pyval) :=
  match params, args with
  | p :: params', a :: args' => (p, a) :: bind_positional params' args'
  | _, _ => []
  end.

Fixpoint bind_keywords (params : list string) (bound : list (string * pyval))
    (kwargs : list (string * pyval)) : type_error + list (string * pyval) :=
  match kwargs with
  | [] => inr bound
  | (k, v) :: kwargs' =>
      if negb (has_name k params) then inl (UnexpectedKeyword k)
      else match assoc k bound with
           | Some _ => inl (MultipleValues k)
           | None => bind_keywords params (bound ++ [(k, v)]) kwargs'
           end
  end.

Fixpoint collect (params : list string) (bound : list (string * pyval))
    : option (list pyval) :=
  match params with
  | [] => Some []
  | p :: params' =>
      match assoc p bound, collect params' bound with
      | Some v, Some vs => Some (v :: vs)
      | _, _ => None
      end
  end.

(** Binding the arguments of a call to a function whose parameters are
    all positional-or-keyword without defaults: positional arguments
    fill the leading parameters, each keyword must name a parameter not
    yet filled, and every parameter must end up filled. *)
Definition bind_arguments (params : list string) (args : list pyval)
    (kwargs : list (string * pyval)) : type_error + list pyval :=
  match bind_keywords params (bind_positional params args) kwargs with
  | inl e => inl e
  | inr bound =>
      if (length params <? length args)%nat then inl TooManyPositional
      else match collect params bound with
           | Some vs => inr vs
           | None =>
               inl (MissingArguments
                      (List.filter (fun p => negb (has_name p (map fst bound))) params))
           end
  end.

Definition log_daily_goals_params : list string :=
  ["user_id"; "german_hours"; "tech_hours"; "applications_sent"; "words_learned"]%string.

Definition as_float (v : pyval) : Q :=
  match v with PyInt n => inject_Z n | PyFloat q => q end.

(** A call of [goal_service.log_daily_goals] with the positional and
    keyword arguments its caller writes. *)
Definition log_daily_goals_call (today : date) (args : list pyval)
    (kwargs : list (string * pyval)) : M (outcome (bool * string)) :=
  match bind_arguments log_daily_goals_params args kwargs with
  | inl e => ret (Raised (TypeError e))
  | inr [PyInt user_id; german_hours; tech_hours; PyInt applications_sent; PyInt words_learned] =>
      call r <- log_daily_goals today user_id (as_float german_hours)
                  (as_float tech_hours) applications_sent words_learned ;;
      ret (Returned r)
  | inr _ => ret Unmodelled
  end.

(** Truth value of a returned pair: a non-empty tuple is true. *)
Definition truthy_pair {A B} (p : A * B) : bool := true.

(** ** app.py: the handlers that drive the engine *)

(** The lock check at the top of [dashboard_page]. *)
Definition dashboard_page_locked (today : date) (user : Users.row) : bool :=
  (Users.is_locked user =? 1) &&
  match Users.lock_end_date user with
  | Some lock_end => today <? lock_end
  | None => false
  end.

(** [checkin_page], the run in which the form is submitted. *)
Definition checkin_page (today : date) (user_id : Z)
    (german_hours tech_hours : Q) (apps_sent words_learned : Z) : M unit :=
  call completed <- check_daily_completion today user_id ;;
  if completed then ret tt
  else
    let goal_met := Qle_bool 2 german_hours && Qle_bool 3 tech_hours &&
                    (5 <=? apps_sent) && (50 <=? words_learned) in
    if goal_met then
      call logged <- log_daily_goals today user_id german_hours tech_hours
                       apps_sent words_learned ;;
      if truthy_pair logged then
        exec update_user_streak today user_id false ;;
        call user <- get_user user_id ;;
        match user with
        | Some user =>
            let streak := Users.current_streak user in
            if streak =? 7 then
              exec add_achievement today user_id (Some "Week Warrior"%string) ;; ret tt
            else if streak =? 30 then
              exec add_achievement today user_id (Some "Monthly Master"%string) ;; ret tt
            else if streak =? 100 then
              exec add_achievement today user_id (Some "Century Champion"%string) ;; ret tt
            else if streak =? 365 then
              exec add_achievement today user_id (Some "Yearly Legend"%string) ;; ret tt
            else ret tt
        | None => ret tt
        end
      else ret tt
    else
      exec update_user_streak today user_id true ;;
      exec add_penalty today user_id (Some 10%Q) (Some "Daily goals not met"%string) ;;
      ret tt.

(** [lock_page], button "3h German Study". *)
Definition lock_page_german_study (today : date) (user_id : Z) : M (outcome unit) :=
  call user <- get_user user_id ;;
  match user with
  | None => ret (Returned tt)
  | Some _ =>
      call logged <- log_daily_goals_call today [PyInt user_id]
                       [("german_hours"%string, PyFloat 3);
                        ("checkin_completed"%string, PyInt 1)] ;;
      match logged with
      | Returned r =>
          if truthy_pair r then exec unlock_app user_id ;; ret (Returned tt)
          else ret (Returned tt)
      | Raised e => ret (Raised e)
      | Unmodelled => ret Unmodelled
      end
  end.

(** [lock_page], button "10 Applications". *)
Definition lock_page_applications (today : date) (user_id : Z) : M (outcome unit) :=
  call user <- get_user user_id ;;
  match user with
  | None => ret (Returned tt)
  | Some _ =>
      call logged <- log_daily_goals_call today [PyInt user_id]
                       [("applications_sent"%string, PyInt 10);
                        ("checkin_completed"%string, PyInt 1)] ;;
      match logged with
      | Returned r =>
          if truthy_pair r then exec unlock_app user_id ;; ret (Returned tt)
          else ret (Returned tt)
      | Raised e => ret (Raised e)
      | Unmodelled => ret Unmodelled
      end
  end.

(** [lock_page], button "Pay $20". *)
Definition lock_page_pay (today : date) (user_id : Z) : M unit :=
  call user <- get_user user_id ;;
  match user with
  | None => ret tt
  | Some _ =>
      call paid <- add_penalty today user_id (Some 20%Q) (Some "Redemption payment"%string) ;;
      if paid then exec unlock_app user_id ;; ret tt
      else ret tt
  end.

(** The buttons of [settings_page]. *)
Inductive settings_button :=
  | UpdateApiKeyButton
  | EmergencyUnlockButton
  | ConfirmEmergencyUnlockButton
  | BackToDashboardButton.

(** [st.button]: True only in the rerun that the click on this very
    button triggers.  A rerun is triggered by at most one click;
    [clicked] is that button, [None] for a rerun no button caused. *)
Definition st_button (b : settings_button) (clicked : option settings_button) : bool :=
  match clicked, b with
  | Some UpdateApiKeyButton, UpdateApiKeyButton
  | Some EmergencyUnlockButton, EmergencyUnlockButton
  | Some ConfirmEmergencyUnlockButton, ConfirmEmergencyUnlockButton
  | Some BackToDashboardButton, BackToDashboardButton => true
  | _, _ => false
  end.

(** The block of [settings_page] under "Confirm Emergency Unlock"
    (lines 713-721): the penalty, then the reset and unlock. *)
Definition emergency_unlock_confirmed (today : date) (user_id : Z) : M unit :=
  call charged <- add_penalty today user_id (Some 50%Q) (Some "Emergency unlock"%string) ;;
  if charged then exec reset_streak_and_unlock user_id ;; ret tt
  else ret tt.

(** [settings_page], the Emergency Options (lines 704-721), in one run
    of the page: the confirmation button is asked for inside the branch
    of the "Emergency Unlock ($50)" button. *)
Definition settings_page_emergency_unlock (clicked : option settings_button)
    (today : date) (user_id : Z) : M unit :=
  if st_button EmergencyUnlockButton clicked then
    if st_button ConfirmEmergencyUnlockButton clicked then
      emergency_unlock_confirmed today user_id
    else ret tt
  else ret tt.

(** ** db_manager: registration and the read side *)

(** [create_user_db].  [email] is UNIQUE: a taken address is the
    IntegrityError.  The row gets the next rowid and the schema defaults
    (both streaks 0, not locked, no lock end, no check-in yet).
    [password_hash], [start_date] and [gemini_api_key] go to columns that
    [Users.row] does not carry. *)
Definition email_taken (email : string) (d : DB) : bool :=
  existsb (fun kv => String.eqb (Users.email (snd kv)) email) (map_to_list (users d)).

Definition create_user_db (email password_hash name : string) (start_date : date)
    (money_at_risk : Q) (gemini_api_key : option string) : M (option Z) :=
  call bad <- store_fault ;;
  if bad then ret None
  else
    call d <- query (fun d => d) ;;
    if email_taken email d then ret None
    else
      let user_id := next_rowid (map fst (map_to_list (users d))) in
      exec commit (mkDB
        (<[user_id := Users.mk user_id email name 0 0 None money_at_risk 0 None]> (users d))
        (daily_goals d) (achievements d) (penalties d)) ;;
      ret (Some user_id).

(** [ORDER BY date DESC]: rows are placed by descending date; rows of
    equal date, whose order SQL leaves open, stay in rowid order. *)
Fixpoint insert_desc {A} (key : A -> date) (x : A) (sorted : list A) : list A :=
  match sorted with
  | [] => [x]
  | y :: sorted' =>
      if key y <=? key x then x :: sorted
      else y :: insert_desc key x sorted'
  end.

Definition order_by_desc {A} (key : A -> date) (rows : list A) : list A :=
  foldr (insert_desc key) [] rows.

Definition get_user_achievements (user_id : Z) : M (list (string * date)) :=
  call bad <- store_fault ;;
  if bad then ret []
  else
    query (fun d =>
      map (fun r => (Achievements.achievement_name r, Achievements.date_earned r))
        (order_by_desc Achievements.date_earned
           (filter (fun r => Achievements.user_id r = user_id) (achievements d)))).

Definition get_user_penalties (user_id : Z) : M (list (Q * string * date)) :=
  call bad <- store_fault ;;
  if bad then ret []
  else
    query (fun d =>
      map (fun r => (Penalties.amount r, Penalties.reason r, Penalties.date_ r))
        (order_by_desc Penalties.date_
           (filter (fun r => Penalties.user_id r = user_id /\ Penalties.paid r = 0)
              (penalties d)))).

(** The columns [get_streak_data] selects: date, german_hours,
    tech_hours, applications_sent, words_learned, checkin_completed. *)
Definition activity : Type := date * Q * Q * Z * Z * Z.

Definition activity_columns (r : DailyGoals.row) : activity :=
  (DailyGoals.date_ r, DailyGoals.german_hours r, DailyGoals.tech_hours r,
   DailyGoals.applications_sent r, DailyGoals.words_learned r,
   DailyGoals.checkin_completed r).

Definition activity_date (a : activity) : date :=
  match a with (day, _, _, _, _, _) => day end.

(** [get_streak_data]: the newest 30 daily records of the user. *)
Definition get_streak_data (user_id : Z) : M (list activity) :=
  call bad <- store_fault ;;
  if bad then ret []
  else
    query (fun d =>
      map activity_columns
        (take 30
           (order_by_desc DailyGoals.date_
              (filter (fun r => DailyGoals.user_id r = user_id) (daily_goals d))))).

(** ** goal_service: the read side *)

Definition get_user_achievements_list (user_id : Z) : M (list (string * date)) :=
  get_user_achievements user_id.

Definition get_user_penalties_list (user_id : Z) : M (list (Q * string * date)) :=
  get_user_penalties user_id.

Definition get_streak_data_for_progress (user_id : Z) : M (list activity) :=
  get_streak_data user_id.

(** * Properties *)

(** ** Concrete stores used to exercise the statements *)

(** A user as [create_user_db] leaves it: the schema defaults. *)
Definition fresh_user (user_id : Z) : Users.row :=
  Users.mk user_id "user@example.com" "User" 0 0 None 100 0 None.

Definition fresh_db : DB := mkDB {[ 1 := fresh_user 1 ]} [] [] [].

Definition fresh_world : World := mkWorld fresh_db [] [].

(** User 1 on a five-day streak, locked on day 100 until day 101. *)
Definition locked_user : Users.row :=
  Users.mk 1 "user@example.com" "User" 12 5 (Some 100) 100 1 (Some 101).

Definition locked_world : World :=
  mkWorld (mkDB {[ 1 := locked_user ]} [] [] []) [] [].

(** ** Vocabulary of the statements *)

(** The row [update_user_streak] writes for a Pass verdict. *)
Definition pass_row (today : date) (u : Users.row) : Users.row :=
  Users.mk (Users.id u) (Users.email u) (Users.name u)
    (Users.total_streak u + 1) (Users.current_streak u + 1) (Some today)
    (Users.money_at_risk u) (Users.is_locked u) None.

(** The row [update_user_streak] writes for a Fail verdict. *)
Definition fail_row (today : date) (u : Users.row) : Users.row :=
  Users.mk (Users.id u) (Users.email u) (Users.name u)
    (Users.total_streak u) 0 (Some today)
    (Users.money_at_risk u) 1 (Some (today + 1)).

(** The rows of [achievements] held by a user under a name. *)
Definition achievement_rows (user_id : Z) (n : string) (d : DB)
    : list Achievements.row :=
  filter (fun r => Achievements.user_id r = user_id /\
                   Achievements.achievement_name r = n) (achievements d).

(** The Emergency Options over successive runs of the settings page,
    one run per click, oldest first. *)
Fixpoint settings_page_runs (clicks : list (option settings_button))
    (today : date) (user_id : Z) : M unit :=
  match clicks with
  | [] => ret tt
  | clicked :: clicks' =>
      exec settings_page_emergency_unlock clicked today user_id ;;
      settings_page_runs clicks' today user_id
  end.

(** The penalty an emergency unlock records. *)
Definition emergency_charge (today : date) (user_id : Z) (d : DB) : Penalties.row :=
  Penalties.mk (next_rowid (map Penalties.id (penalties d)))
    user_id 50 "Emergency unlock" today 0.

(** An operation that leaves a projection of the store unchanged. *)
Definition preserves {A X} (f : World -> X) (op : M A) : Prop :=
  forall w, f (after op w) = f w.

(** The achievements table, as a projection of the store. *)
Definition awarded (w : World) : list Achievements.row := achievements (tables w).

(** [n] consecutive days, one submission a day from [first] on. *)
Fixpoint consecutive_days {A} (submit : date -> M A) (n : nat) (first : date) : M unit :=
  match n with
  | O => ret tt
  | S n' => exec submit first ;; consecutive_days submit n' (first + 1)
  end.

(** The rows of [daily_goals] for a user and a date. *)
Definition day_rows (user_id : Z) (day : date) (d : DB) : list DailyGoals.row :=
  filter (fun r => same_day user_id day r = true) (daily_goals d).

(** At most one daily record per (user, date). *)
Definition one_row_per_day (d : DB) : Prop :=
  forall user_id day, (length (day_rows user_id day d) <= 1)%nat.

(** The table [log_daily_goals_db] commits. *)
Definition upserted (user_id : Z) (day : date) (german_hours tech_hours : Q)
    (applications_sent words_learned checkin_completed : Z)
    (rows : list DailyGoals.row) : list DailyGoals.row :=
  match head (filter (fun r => same_day user_id day r = true) rows) with
  | Some _ =>
      map (fun r =>
             if same_day user_id day r
             then DailyGoals.mk (DailyGoals.id r) (DailyGoals.user_id r)
                    (DailyGoals.date_ r) german_hours tech_hours
                    applications_sent words_learned checkin_completed
             else r)
          rows
  | None =>
      rows ++
      [DailyGoals.mk (next_rowid (map DailyGoals.id rows))
         user_id day german_hours tech_hours applications_sent
         words_learned checkin_completed]
  end.

(** The milestone table of [checkin_page]. *)
Definition milestone (streak : Z) : option string :=
  if streak =? 7 then Some "Week Warrior"%string
  else if streak =? 30 then Some "Monthly Master"%string
  else if streak =? 100 then Some "Century Champion"%string
  else if streak =? 365 then Some "Yearly Legend"%string
  else None.

(** No two users share an email address. *)
Definition unique_emails (d : DB) : Prop :=
  forall i j u v,
    users d !! i = Some u -> users d !! j = Some v ->
    Users.email u = Users.email v -> i = j.

(** Rowids identify the rows of each table. *)
Definition rowids_distinct (d : DB) : Prop :=
  NoDup (map DailyGoals.id (daily_goals d)) /\
  NoDup (map Achievements.id (achievements d)) /\
  NoDup (map Penalties.id (penalties d)).

(** A list of rows in descending date order. *)
Definition descending {A} (key : A -> date) (rows : list A) : Prop :=
  StronglySorted (fun x y => key y <= key x) rows.

(** What the engine may do to a user row in one write: the identity
    columns stay, [total_streak] does not decrease, the streak bounds and
    the lock-end-implies-locked shape are kept when they held. *)
Definition row_step (u u' : Users.row) : Prop :=
  Users.id u' = Users.id u /\ Users.email u' = Users.email u /\
  Users.name u' = Users.name u /\ Users.money_at_risk u' = Users.money_at_risk u /\
  Users.total_streak u <= Users.total_streak u' /\
  (0 <= Users.current_streak u <= Users.total_streak u ->
   0 <= Users.current_streak u' <= Users.total_streak u') /\
  (is_Some (Users.lock_end_date u') -> Users.is_locked u' = 1).

(** The elementary writes made on behalf of one user. *)
Inductive db_step (user_id : Z) (d : DB) : DB -> Prop :=
  | step_user u u' :
      users d !! user_id = Some u ->
      row_step u u' ->
      db_step user_id d
        (mkDB (<[user_id := u']> (users d)) (daily_goals d) (achievements d) (penalties d))
  | step_goal day gh th a wl cc :
      db_step user_id d
        (mkDB (users d) (upserted user_id day gh th a wl cc (daily_goals d))
           (achievements d) (penalties d))
  | step_achievement n day :
      db_step user_id d
        (mkDB (users d) (daily_goals d)
           (achievements d ++
            [Achievements.mk (next_rowid (map Achievements.id (achievements d)))
               user_id n day])
           (penalties d))
  | step_penalty amount reason day :
      db_step user_id d
        (mkDB (users d) (daily_goals d) (achievements d)
           (penalties d ++
            [Penalties.mk (next_rowid (map Penalties.id (penalties d)))
               user_id amount reason day 0])).

(** An operation whose effect on the tables, on any store, is a finite
    run of elementary writes for the user. *)
Definition writes_for (user_id : Z) {A} (op : M A) : Prop :=
  forall w, rtc (db_step user_id) (tables w) (tables (after op w)).

(** The requests a signed-in user can make of the engine.
    [SettingsRun] is a run of the Emergency Options as the page is
    written; [EmergencyUnlock] is the confirmed block itself, which no
    click reaches in the page as written: the invariants below cover
    both. *)
Inductive request :=
  | ApiCheckin (data : checkin_json)
  | CheckinForm (german_hours tech_hours : Q) (apps_sent words_learned : Z)
  | RedeemGermanStudy
  | RedeemApplications
  | RedeemPay
  | SettingsRun (clicked : option settings_button)
  | EmergencyUnlock.

Record event := mkEvent {
  ev_day : date;
  ev_user : Z;
  ev_request : request
}.

Definition handle (e : event) : M unit :=
  match ev_request e with
  | ApiCheckin data => exec api_checkin (ev_day e) (ev_user e) data ;; ret tt
  | CheckinForm gh th a wl => checkin_page (ev_day e) (ev_user e) gh th a wl
  | RedeemGermanStudy => exec lock_page_german_study (ev_day e) (ev_user e) ;; ret tt
  | RedeemApplications => exec lock_page_applications (ev_day e) (ev_user e) ;; ret tt
  | RedeemPay => lock_page_pay (ev_day e) (ev_user e)
  | SettingsRun clicked => settings_page_emergency_unlock clicked (ev_day e) (ev_user e)
  | EmergencyUnlock => emergency_unlock_confirmed (ev_day e) (ev_user e)
  end.

(** Serving a history of requests, oldest first. *)
Fixpoint serve (history : list event) : M unit :=
  match history with
  | [] => ret tt
  | e :: history' => exec handle e ;; serve history'
  end.

(** One elementary write by some user among [who]. *)
Definition engine_step (who : Z -> Prop) (d d' : DB) : Prop :=
  exists user_id, who user_id /\ db_step user_id d d'.

(** What the tables hold for one user. *)
Definition user_days (user_id : Z) (d : DB) : list DailyGoals.row :=
  filter (fun r => DailyGoals.user_id r = user_id) (daily_goals d).

Definition user_achievements (user_id : Z) (d : DB) : list Achievements.row :=
  filter (fun r => Achievements.user_id r = user_id) (achievements d).

Definition user_penalties (user_id : Z) (d : DB) : list Penalties.row :=
  filter (fun r => Penalties.user_id r = user_id) (penalties d).

(** Every user's current streak lies between 0 and the total streak. *)
Definition streak_bounded (d : DB) : Prop :=
  forall i u, users d !! i = Some u ->
    0 <= Users.current_streak u <= Users.total_streak u.

(** A user with a lock end date is flagged locked. *)
Definition lock_end_implies_locked (d : DB) : Prop :=
  forall i u, users d !! i = Some u ->
    is_Some (Users.lock_end_date u) -> Users.is_locked u = 1.

(** A short history of user 1: a passing API check-in, a failed form
    the next day, the paid redemption, the two clicks of the settings
    page, the confirmed emergency-unlock block. *)
Definition sample_history : list event :=
  [ mkEvent 100 1 (ApiCheckin (mkCheckinJson (Some 2%Q) (Some 3%Q) (Some 5) (Some 50)));
    mkEvent 101 1 (CheckinForm 1 1 1 10);
    mkEvent 101 1 RedeemPay;
    mkEvent 102 1 (SettingsRun (Some EmergencyUnlockButton));
    mkEvent 102 1 (SettingsRun (Some ConfirmEmergencyUnlockButton));
    mkEvent 102 1 EmergencyUnlock ].

(** Two users; user 2 is locked. *)
Definition two_users_world : World :=
  mkWorld (mkDB (<[ 2 := Users.mk 2 "second@example.com" "Second" 12 5 (Some 100) 100 1 (Some 101) ]>
                   {[ 1 := fresh_user 1 ]}) [] [] []) [] [].

(** ** Running the primitives on an available store *)

Section Available.
Variables (d : DB) (c : list DB).

Lemma run_get_user user_id :
  get_user user_id (mkWorld d c []) = (users d !! user_id, mkWorld d c []).
Proof. reflexivity. Qed.

Lemma run_update_user_streak_data user_id cs ts il le lc :
  update_user_streak_data user_id cs ts il le lc (mkWorld d c []) =
  let d' := mkDB
    (alter (fun u => Users.mk (Users.id u) (Users.email u) (Users.name u)
                       ts cs lc (Users.money_at_risk u) il le) user_id (users d))
    (daily_goals d) (achievements d) (penalties d) in
  (true, mkWorld d' (d' :: c) []).
Proof. reflexivity. Qed.

Lemma run_add_penalty_db user_id a r day :
  add_penalty_db user_id (Some a) (Some r) day (mkWorld d c []) =
  let d' := mkDB (users d) (daily_goals d) (achievements d)
    (penalties d ++
     [Penalties.mk (next_rowid (map Penalties.id (penalties d))) user_id a r day 0]) in
  (true, mkWorld d' (d' :: c) []).
Proof. reflexivity. Qed.

Lemma run_add_achievement_db user_id n day :
  add_achievement_db user_id (Some n) day (mkWorld d c []) =
  let d' := mkDB (users d) (daily_goals d)
    (achievements d ++
     [Achievements.mk (next_rowid (map Achievements.id (achievements d))) user_id n day])
    (penalties d) in
  (true, mkWorld d' (d' :: c) []).
Proof. reflexivity. Qed.

Lemma run_unlock_app_db user_id :
  unlock_app_db user_id (mkWorld d c []) =
  let d' := mkDB
    (alter (fun u => Users.mk (Users.id u) (Users.email u) (Users.name u)
                       (Users.total_streak u) (Users.current_streak u)
                       (Users.last_checkin u) (Users.money_at_risk u) 0 None)
           user_id (users d))
    (daily_goals d) (achievements d) (penalties d) in
  (true, mkWorld d' (d' :: c) []).
Proof. reflexivity. Qed.

Lemma run_reset_streak_and_unlock_db user_id :
  reset_streak_and_unlock_db user_id (mkWorld d c []) =
  let d' := mkDB
    (alter (fun u => Users.mk (Users.id u) (Users.email u) (Users.name u)
                       (Users.total_streak u) 0
                       (Users.last_checkin u) (Users.money_at_risk u) 0 None)
           user_id (users d))
    (daily_goals d) (achievements d) (penalties d) in
  (true, mkWorld d' (d' :: c) []).
Proof. reflexivity. Qed.
End Available.

Lemma goals_met_iff german_hours tech_hours applications_sent words_learned :
  goals_met german_hours tech_hours applications_sent words_learned = true <->
  (2 <= german_hours)%Q /\ (3 <= tech_hours)%Q /\
  5 <= applications_sent /\ 50 <= words_learned.
Proof.
  unfold goals_met, required_german_hours, required_tech_hours,
    required_applications_sent, required_words_learned.
  rewrite !andb_true_iff, !Qle_bool_iff, !Z.leb_le. tauto.
Qed.

(** C3. The goal evaluation passes exactly when all four metrics reach
    their thresholds (2.0 and 3.0 hours, 5 applications, 50 words, all
    inclusive): the exact thresholds pass, any value strictly below its
    threshold fails, and a request to [api_checkin] with a metric missing
    (defaulted to 0) is answered with a failed verdict. *)
Theorem goal_evaluation_thresholds :
  (forall german_hours tech_hours applications_sent words_learned,
     goals_met german_hours tech_hours applications_sent words_learned = true <->
     (2 <= german_hours)%Q /\ (3 <= tech_hours)%Q /\
     5 <= applications_sent /\ 50 <= words_learned) /\
  goals_met 2 3 5 50 = true /\
  (forall german_hours tech_hours applications_sent words_learned,
     (german_hours < 2)%Q \/ (tech_hours < 3)%Q \/
     applications_sent < 5 \/ words_learned < 50 ->
     goals_met german_hours tech_hours applications_sent words_learned = false) /\
  (forall today user_id data w,
     json_german_hours data = None \/ json_tech_hours data = None \/
     json_applications_sent data = None \/ json_words_learned data = None ->
     fst (result (api_checkin today user_id data) w) = false) /\
  (forall today user_id german_hours tech_hours applications_sent words_learned w,
     faults w = [] ->
     fst (result (log_daily_goals today user_id german_hours tech_hours
                    applications_sent words_learned) w) =
     goals_met german_hours tech_hours applications_sent words_learned).
Proof.
  split; [exact goals_met_iff|]. split; [reflexivity|]. split; [|split].
  - intros gh th a wl H.
    apply not_true_is_false. rewrite goals_met_iff. intros (Hg & Ht & Ha & Hw).
    destruct H as [H|[H|[H|H]]].
    + apply (Qlt_not_le _ _ H Hg).
    + apply (Qlt_not_le _ _ H Ht).
    + lia.
    + lia.
  - intros today user_id data w H.
    assert (Hmet : goals_met (dict_get (json_german_hours data) 0%Q)
                     (dict_get (json_tech_hours data) 0%Q)
                     (dict_get (json_applications_sent data) 0)
                     (dict_get (json_words_learned data) 0) = false).
    { apply not_true_is_false. rewrite goals_met_iff. intros (Hg & Ht & Ha & Hw).
      destruct H as [H|[H|[H|H]]]; rewrite H in *; simpl in *.
      - revert Hg. apply Qlt_not_le. reflexivity.
      - revert Ht. apply Qlt_not_le. reflexivity.
      - lia.
      - lia. }
    unfold result, api_checkin, log_daily_goals. rewrite Hmet.
    unfold bind.
    destruct (log_daily_goals_db _ _ _ _ _ _ _ w) as [[|] w1]; [|reflexivity].
    destruct (update_user_streak today user_id true w1) as [b2 w2].
    destruct (add_penalty today user_id _ _ w2) as [b3 w3]. reflexivity.
  - intros today user_id gh th a wl [d c f] Hf. simpl in Hf. subst f.
    unfold result, log_daily_goals, bind.
    destruct (log_daily_goals_db _ _ _ _ _ _ _ _) as [ok w1] eqn:Hlog.
    assert (ok = true) as -> by (now inversion Hlog).
    destruct (goals_met gh th a wl).
    + destruct (update_user_streak today user_id false w1). reflexivity.
    + destruct (update_user_streak today user_id true w1) as [b2 w2].
      destruct (add_penalty today user_id _ _ w2). reflexivity.
Qed.

Lemma goal_evaluation_thresholds_witness :
  goals_met 2 3 5 50 = true /\
  goals_met (3 # 2) 3 5 50 = false /\
  fst (result (api_checkin 100 1 (mkCheckinJson (Some (5 # 2)) None None None))
         fresh_world) = false /\
  fst (result (log_daily_goals 100 1 2 3 5 50) fresh_world) = true.
Proof.
  destruct goal_evaluation_thresholds as (_ & Hexact & Hbelow & Hmissing & Hflag).
  split; [exact Hexact|]. split.
  - apply Hbelow. left. reflexivity.
  - split.
    + apply Hmissing. right. left. reflexivity.
    + rewrite Hflag; reflexivity.
Defined.

(** ** The streak transition *)

(** C10. When no user record exists for the id, [update_user_streak]
    returns False and writes nothing: the tables are unchanged and no
    commit is issued, whatever the verdict and whether or not the store
    answers. *)
Theorem update_user_streak_unknown_user today user_id streak_broken w :
  users (tables w) !! user_id = None ->
  result (update_user_streak today user_id streak_broken) w = false /\
  tables (after (update_user_streak today user_id streak_broken) w) = tables w /\
  commits (after (update_user_streak today user_id streak_broken) w) = commits w.
Proof.
  intros Hnone. destruct w as [d c f]. simpl in Hnone.
  unfold result, after, update_user_streak, get_user, bind, store_fault, query, ret.
  destruct f as [|[|] fs]; simpl; rewrite ?Hnone; auto.
Qed.

Lemma update_user_streak_unknown_user_witness :
  result (update_user_streak 100 2 false) fresh_world = false /\
  tables (after (update_user_streak 100 2 false) fresh_world) = tables fresh_world /\
  commits (after (update_user_streak 100 2 false) fresh_world) = commits fresh_world.
Proof.
  apply (update_user_streak_unknown_user 100 2 false fresh_world).
  vm_compute. reflexivity.
Defined.

Lemma run_update_user_streak today user_id streak_broken d c u :
  users d !! user_id = Some u ->
  update_user_streak today user_id streak_broken (mkWorld d c []) =
  let d' := mkDB (<[user_id := if streak_broken then fail_row today u else pass_row today u]> (users d))
                 (daily_goals d) (achievements d) (penalties d) in
  (true, mkWorld d' (d' :: c) []).
Proof.
  intros Hu. unfold update_user_streak, bind. rewrite run_get_user, Hu.
  destruct streak_broken; rewrite run_update_user_streak_data; cbv zeta;
    repeat f_equal; apply map_eq; intros i;
    (destruct (decide (user_id = i)) as [->|Hne];
     [rewrite lookup_alter_eq, lookup_insert_eq, Hu; reflexivity
     |rewrite lookup_alter_ne, lookup_insert_ne by done; reflexivity]).
Qed.

(** C4 on the code: a Pass verdict adds 1 to [current_streak] and to
    [total_streak], clears [lock_end_date] and stamps [last_checkin]
    with the evaluation date, but writes [is_locked] back as it read it:
    a locked user stays flagged locked (with no end date). *)
Theorem pass_keeps_is_locked today user_id w u :
  faults w = [] ->
  users (tables w) !! user_id = Some u ->
  exists u',
    users (tables (after (update_user_streak today user_id false) w)) !! user_id =
      Some u' /\
    Users.is_locked u' = Users.is_locked u /\
    Users.lock_end_date u' = None /\
    Users.current_streak u' = Users.current_streak u + 1 /\
    Users.total_streak u' = Users.total_streak u + 1 /\
    Users.last_checkin u' = Some today.
Proof.
  intros Hf Hu. destruct w as [d c f]. simpl in Hf, Hu. subst f.
  unfold after. rewrite (run_update_user_streak _ _ _ _ _ _ Hu). simpl.
  exists (pass_row today u). rewrite lookup_insert_eq. repeat split.
Qed.

Lemma pass_keeps_is_locked_witness :
  exists u',
    users (tables (after (update_user_streak 101 1 false) locked_world)) !! 1 =
      Some u' /\
    Users.is_locked u' = 1 /\
    Users.lock_end_date u' = None /\
    Users.current_streak u' = 6 /\
    Users.total_streak u' = 13 /\
    Users.last_checkin u' = Some 101.
Proof.
  apply (pass_keeps_is_locked 101 1 locked_world locked_user); reflexivity.
Defined.

Lemma run_log_daily_goals_db user_id day gh th a wl cc d c :
  exists rows,
    log_daily_goals_db user_id day gh th a wl cc (mkWorld d c []) =
    let d' := mkDB (users d) rows (achievements d) (penalties d) in
    (true, mkWorld d' (d' :: c) []).
Proof.
  unfold log_daily_goals_db, bind, store_fault, query, commit, ret. simpl.
  eexists. reflexivity.
Qed.

(** One check-in on an available store, for a known user: the daily
    record is upserted, the user row is rewritten by the verdict, and a
    failed verdict appends the 10.0 penalty. *)
Lemma run_log_daily_goals today user_id gh th a wl d c u :
  users d !! user_id = Some u ->
  exists rows c',
    log_daily_goals today user_id gh th a wl (mkWorld d c []) =
    if goals_met gh th a wl then
      ((true, "Daily goals completed!"%string),
       mkWorld (mkDB (<[user_id := pass_row today u]> (users d)) rows
                  (achievements d) (penalties d)) c' [])
    else
      ((false, "Daily goals not met. App locked for 24 hours and penalty applied."%string),
       mkWorld (mkDB (<[user_id := fail_row today u]> (users d)) rows
                  (achievements d)
                  (penalties d ++
                   [Penalties.mk (next_rowid (map Penalties.id (penalties d)))
                      user_id 10 "Daily goals not met" today 0])) c' []).
Proof.
  intros Hu.
  destruct (run_log_daily_goals_db user_id today gh th a wl
              (if goals_met gh th a wl then 1 else 0) d c) as [rows Hlog].
  exists rows. unfold log_daily_goals, bind. rewrite Hlog. cbv zeta.
  destruct (goals_met gh th a wl).
  - rewrite (run_update_user_streak today user_id false _ _ u) by exact Hu.
    eexists. reflexivity.
  - rewrite (run_update_user_streak today user_id true _ _ u) by exact Hu.
    cbv zeta. unfold add_penalty. rewrite run_add_penalty_db.
    eexists. reflexivity.
Qed.

(** C5. A Fail verdict, applied by [log_daily_goals] for a known user on
    an available store, sets [current_streak] to 0, leaves
    [total_streak] unchanged, sets [is_locked], sets [lock_end_date] to
    the evaluation date plus one day and [last_checkin] to the evaluation
    date, and appends exactly one penalty: 10.0, "Daily goals not met",
    dated the evaluation date. *)
Theorem fail_transition today user_id german_hours tech_hours
    applications_sent words_learned w u :
  faults w = [] ->
  users (tables w) !! user_id = Some u ->
  goals_met german_hours tech_hours applications_sent words_learned = false ->
  let w' := after (log_daily_goals today user_id german_hours tech_hours
                     applications_sent words_learned) w in
  (exists u',
     users (tables w') !! user_id = Some u' /\
     Users.current_streak u' = 0 /\
     Users.total_streak u' = Users.total_streak u /\
     Users.is_locked u' = 1 /\
     Users.lock_end_date u' = Some (timedelta_days today 1) /\
     Users.last_checkin u' = Some today) /\
  penalties (tables w') =
    penalties (tables w) ++
    [Penalties.mk (next_rowid (map Penalties.id (penalties (tables w))))
       user_id 10 "Daily goals not met" today 0].
Proof.
  intros Hf Hu Hmet w'. subst w'. destruct w as [d c f]. simpl in Hf, Hu. subst f.
  destruct (run_log_daily_goals today user_id german_hours tech_hours
              applications_sent words_learned d c u Hu) as (rows & c' & Hrun).
  rewrite Hmet in Hrun. unfold after. rewrite Hrun. simpl. split.
  - exists (fail_row today u). rewrite lookup_insert_eq. repeat split.
  - reflexivity.
Qed.

Lemma fail_transition_witness :
  (exists u',
     users (tables (after (log_daily_goals 100 1 1 1 1 10) locked_world)) !! 1 = Some u' /\
     Users.current_streak u' = 0 /\
     Users.total_streak u' = 12 /\
     Users.is_locked u' = 1 /\
     Users.lock_end_date u' = Some 101 /\
     Users.last_checkin u' = Some 100) /\
  penalties (tables (after (log_daily_goals 100 1 1 1 1 10) locked_world)) =
    [Penalties.mk 1 1 10 "Daily goals not met" 100 0].
Proof.
  apply (fail_transition 100 1 1 1 1 10 locked_world locked_user);
    reflexivity.
Defined.

(** C1 on the code: [log_daily_goals] applies a streak transition on
    every call.  Two passing submissions for the same user and date add 2
    to [total_streak] and to [current_streak]. *)
Theorem repeated_submission_counts_twice today user_id german_hours tech_hours
    applications_sent words_learned w u :
  faults w = [] ->
  users (tables w) !! user_id = Some u ->
  goals_met german_hours tech_hours applications_sent words_learned = true ->
  let submit := log_daily_goals today user_id german_hours tech_hours
                  applications_sent words_learned in
  exists u',
    users (tables (after (exec submit ;; submit) w)) !! user_id = Some u' /\
    Users.total_streak u' = Users.total_streak u + 2 /\
    Users.current_streak u' = Users.current_streak u + 2.
Proof.
  intros Hf Hu Hmet submit. subst submit. destruct w as [d c f]. simpl in Hf, Hu. subst f.
  destruct (run_log_daily_goals today user_id german_hours tech_hours
              applications_sent words_learned d c u Hu) as (rows & c' & Hrun).
  rewrite Hmet in Hrun. unfold after, bind. rewrite Hrun.
  match goal with |- context [log_daily_goals _ _ _ _ _ _ (mkWorld ?d1 ?c1 [])] =>
    destruct (run_log_daily_goals today user_id german_hours tech_hours
                applications_sent words_learned d1 c1 (pass_row today u))
      as (rows2 & c2 & Hrun2); [apply lookup_insert_eq|]
  end.
  rewrite Hmet in Hrun2. rewrite Hrun2. simpl.
  exists (pass_row today (pass_row today u)). rewrite lookup_insert_eq.
  simpl. repeat split; lia.
Qed.

Lemma repeated_submission_counts_twice_witness :
  exists u',
    users (tables (after (exec log_daily_goals 100 1 2 3 5 50 ;;
                          log_daily_goals 100 1 2 3 5 50) fresh_world)) !! 1 = Some u' /\
    Users.total_streak u' = 2 /\
    Users.current_streak u' = 2.
Proof.
  apply (repeated_submission_counts_twice 100 1 2 3 5 50 fresh_world (fresh_user 1));
    reflexivity.
Defined.

(** ** Achievements *)

(** C2 on the code: the [achievements] table carries no UNIQUE
    constraint, so the INSERT of [add_achievement_db] never meets an
    IntegrityError for a repeated (user, name): on an available store
    both calls return True and the pair gains two rows. *)
Theorem add_achievement_twice_duplicates today user_id n w :
  faults w = [] ->
  let award := add_achievement today user_id (Some n) in
  result (call first <- award ;; call second <- award ;; ret (first, second)) w =
    (true, true) /\
  length (achievement_rows user_id n (tables (after (exec award ;; award) w))) =
    S (S (length (achievement_rows user_id n (tables w)))).
Proof.
  intros Hf award. subst award. destruct w as [d c f]. simpl in Hf. subst f.
  unfold result, after, add_achievement, bind.
  rewrite !run_add_achievement_db. cbv beta iota zeta.
  rewrite !run_add_achievement_db. cbv beta iota zeta. split; [reflexivity|].
  unfold achievement_rows. simpl.
  rewrite !filter_app, !length_app.
  rewrite !filter_cons_True by (simpl; auto). simpl. lia.
Qed.

Lemma add_achievement_twice_duplicates_witness :
  result (call first <- add_achievement 100 1 (Some "Week Warrior"%string) ;;
          call second <- add_achievement 100 1 (Some "Week Warrior"%string) ;;
          ret (first, second)) fresh_world = (true, true) /\
  length (achievement_rows 1 "Week Warrior"
            (tables (after (exec add_achievement 100 1 (Some "Week Warrior"%string) ;;
                            add_achievement 100 1 (Some "Week Warrior"%string))
                       fresh_world))) = 2%nat.
Proof.
  apply (add_achievement_twice_duplicates 100 1 "Week Warrior" fresh_world).
  reflexivity.
Defined.

(** ** Penalties *)

(** C9 as stated fails: a penalty of -5.0 is accepted and stored. *)
Lemma negative_penalty_is_recorded :
  (-5 <= 0)%Q /\
  result (add_penalty 100 1 (Some (-5)%Q) (Some "Late payment"%string)) fresh_world = true /\
  penalties (tables (after (add_penalty 100 1 (Some (-5)%Q) (Some "Late payment"%string))
                       fresh_world)) =
    [Penalties.mk 1 1 (-5) "Late payment" 100 0].
Proof. split; [discriminate|]. split; reflexivity. Qed.

(** C9 amended. [add_penalty] does not look at the sign of the amount:
    on an available store every amount, positive or not, is appended as
    one penalty row dated today and True is returned.  The only request
    rejected before any mutation is one whose amount or reason is
    missing (NOT NULL): it returns False, writes nothing and commits
    nothing. *)
Theorem add_penalty_records_any_amount today user_id w :
  faults w = [] ->
  (forall amount reason,
     result (add_penalty today user_id (Some amount) (Some reason)) w = true /\
     penalties (tables (after (add_penalty today user_id (Some amount) (Some reason)) w)) =
       penalties (tables w) ++
       [Penalties.mk (next_rowid (map Penalties.id (penalties (tables w))))
          user_id amount reason today 0]) /\
  (forall amount reason,
     amount = None \/ reason = None ->
     result (add_penalty today user_id amount reason) w = false /\
     after (add_penalty today user_id amount reason) w = w).
Proof.
  intros Hf. destruct w as [d c f]. simpl in Hf. subst f. split.
  - intros amount reason. unfold result, after, add_penalty.
    rewrite run_add_penalty_db. split; reflexivity.
  - intros amount reason Hnull. unfold result, after, add_penalty, add_penalty_db,
      bind, store_fault, query, ret. simpl.
    destruct Hnull as [-> | ->]; [|destruct amount]; split; reflexivity.
Qed.

Lemma add_penalty_records_any_amount_witness :
  result (add_penalty 100 1 (Some 0%Q) (Some "Late payment"%string)) fresh_world = true /\
  penalties (tables (after (add_penalty 100 1 (Some 0%Q) (Some "Late payment"%string))
                       fresh_world)) =
    [Penalties.mk 1 1 0 "Late payment" 100 0].
Proof.
  destruct (add_penalty_records_any_amount 100 1 fresh_world) as [Hrec _];
    [reflexivity | exact (Hrec 0%Q "Late payment"%string)].
Defined.

(** ** Emergency unlock *)

(** What the block under the confirmation does when it is run, on an
    available store, for a known user: the 50.0 penalty in one commit,
    then the reset and unlock in a second one. *)
Lemma confirmed_block_charges_then_unlocks today user_id w u :
  faults w = [] ->
  users (tables w) !! user_id = Some u ->
  let w' := after (emergency_unlock_confirmed today user_id) w in
  let charge := emergency_charge today user_id (tables w) in
  exists charged unlocked,
    commits w' = unlocked :: charged :: commits w /\
    tables w' = unlocked /\
    penalties charged = penalties (tables w) ++ [charge] /\
    users charged = users (tables w) /\
    penalties unlocked = penalties (tables w) ++ [charge] /\
    exists u',
      users unlocked !! user_id = Some u' /\
      Users.current_streak u' = 0 /\
      Users.is_locked u' = 0 /\
      Users.lock_end_date u' = None /\
      Users.total_streak u' = Users.total_streak u.
Proof.
  intros Hf Hu w' charge. subst w' charge. destruct w as [d c f].
  simpl in Hf, Hu. subst f.
  unfold after, emergency_unlock_confirmed, add_penalty, bind.
  rewrite run_add_penalty_db. cbv beta iota zeta.
  unfold reset_streak_and_unlock, bind.
  rewrite run_reset_streak_and_unlock_db. cbv beta iota zeta.
  do 2 eexists. repeat (split; [reflexivity|]).
  eexists. split; [cbn [users]; rewrite lookup_alter_eq, Hu; reflexivity|].
  repeat split.
Qed.

(** No run of the Emergency Options reaches the block: the two buttons
    are never both True in one run. *)
Lemma settings_page_emergency_unlock_idle clicked today user_id :
  settings_page_emergency_unlock clicked today user_id = ret tt.
Proof. destruct clicked as [[]|]; reflexivity. Qed.

(** C6 on the code: the emergency unlock is never applied.  The
    confirmation button sits inside the branch of the "Emergency Unlock
    ($50)" button, and in the rerun that the confirmation click triggers
    the outer button is False.  Whatever is clicked, in whatever order
    and however often, the Emergency Options make no database call and
    leave the store exactly as it was: no penalty is added, the streak
    is not reset and a locked user stays locked -- as for the locked
    user who clicks "Emergency Unlock ($50)" and then "Confirm Emergency
    Unlock". *)
Theorem emergency_unlock_never_applied :
  (forall clicks today user_id w,
     after (settings_page_runs clicks today user_id) w = w) /\
  (let w' := after (settings_page_runs
                      [Some EmergencyUnlockButton; Some ConfirmEmergencyUnlockButton]
                      100 1) locked_world in
   penalties (tables w') = [] /\
   users (tables w') !! 1 = Some locked_user /\
   dashboard_page_locked 100 locked_user = true /\
   commits w' = []).
Proof.
  split.
  - intros clicks today user_id w. induction clicks as [|clicked clicks IH].
    + reflexivity.
    + unfold after in *. cbn [settings_page_runs]. unfold bind.
      rewrite settings_page_emergency_unlock_idle. simpl. exact IH.
  - repeat split.
Qed.

(** ** Redemption on the lock screen *)

(** X11. [unlock_app] clears [is_locked] and [lock_end_date] of a known user
    and leaves both streak counters as they are. *)
Lemma unlock_app_clears_lock user_id w u :
  faults w = [] ->
  users (tables w) !! user_id = Some u ->
  result (unlock_app user_id) w = true /\
  exists u',
    users (tables (after (unlock_app user_id) w)) !! user_id = Some u' /\
    Users.is_locked u' = 0 /\
    Users.lock_end_date u' = None /\
    Users.current_streak u' = Users.current_streak u /\
    Users.total_streak u' = Users.total_streak u.
Proof.
  intros Hf Hu. destruct w as [d c f]. simpl in Hf, Hu. subst f.
  unfold result, after, unlock_app. rewrite run_unlock_app_db. cbv zeta.
  split; [reflexivity|]. eexists.
  split; [cbn [snd tables users]; rewrite lookup_alter_eq, Hu; reflexivity|].
  repeat split.
Qed.

(** The "Pay $20" redemption records the payment and unlocks. *)
Lemma lock_page_pay_unlocks today user_id w u :
  faults w = [] ->
  users (tables w) !! user_id = Some u ->
  exists u',
    users (tables (after (lock_page_pay today user_id) w)) !! user_id = Some u' /\
    dashboard_page_locked today u' = false /\
    Users.current_streak u' = Users.current_streak u.
Proof.
  intros Hf Hu. destruct w as [d c f]. simpl in Hf, Hu. subst f.
  unfold after, lock_page_pay, bind. rewrite run_get_user, Hu.
  unfold add_penalty. rewrite run_add_penalty_db. cbv beta iota zeta.
  unfold unlock_app. rewrite run_unlock_app_db. cbv beta iota zeta.
  unfold ret. eexists.
  split; [cbn [snd tables users]; rewrite lookup_alter_eq, Hu; reflexivity|].
  split; reflexivity.
Qed.

(** The call written on the "3h German Study" button does not bind. *)
Lemma german_study_call_does_not_bind user_id :
  bind_arguments log_daily_goals_params [PyInt user_id]
    [("german_hours"%string, PyFloat 3); ("checkin_completed"%string, PyInt 1)] =
  inl (UnexpectedKeyword "checkin_completed").
Proof. reflexivity. Qed.

(** C7 on the code: the "3h German Study" redemption passes
    [checkin_completed=1] to [log_daily_goals], which has no such
    parameter.  For a known user on an available store the handler
    raises TypeError before [unlock_app] is reached and the store is left
    as it was: a locked user stays locked. *)
Theorem german_study_redemption_raises today user_id w u :
  faults w = [] ->
  users (tables w) !! user_id = Some u ->
  result (lock_page_german_study today user_id) w =
    Raised (TypeError (UnexpectedKeyword "checkin_completed")) /\
  after (lock_page_german_study today user_id) w = w.
Proof.
  intros Hf Hu. destruct w as [d c f]. simpl in Hf, Hu. subst f.
  unfold result, after, lock_page_german_study, bind.
  rewrite run_get_user, Hu. unfold log_daily_goals_call.
  rewrite german_study_call_does_not_bind. split; reflexivity.
Qed.

Lemma german_study_redemption_raises_witness :
  result (lock_page_german_study 100 1) locked_world =
    Raised (TypeError (UnexpectedKeyword "checkin_completed")) /\
  after (lock_page_german_study 100 1) locked_world = locked_world.
Proof.
  apply (german_study_redemption_raises 100 1 locked_world locked_user);
    reflexivity.
Defined.

(** X12. The "10 Applications" redemption passes the same
    [checkin_completed] keyword: for a known user on an available store
    it raises TypeError before [unlock_app] is reached and leaves the
    store as it was. *)
Lemma applications_redemption_raises today user_id w u :
  faults w = [] ->
  users (tables w) !! user_id = Some u ->
  result (lock_page_applications today user_id) w =
    Raised (TypeError (UnexpectedKeyword "checkin_completed")) /\
  after (lock_page_applications today user_id) w = w.
Proof.
  intros Hf Hu. destruct w as [d c f]. simpl in Hf, Hu. subst f.
  unfold result, after, lock_page_applications, bind.
  rewrite run_get_user, Hu. split; reflexivity.
Qed.

(** The user of [locked_world] is shown the lock screen on day 100, before
    and after pressing the button. *)
Example locked_user_stays_locked :
  dashboard_page_locked 100 locked_user = true /\
  users (tables (after (lock_page_german_study 100 1) locked_world)) !! 1 =
    Some locked_user.
Proof. split; reflexivity. Qed.

(** ** Milestones *)

Lemma preserves_ret {A X} (f : World -> X) (a : A) : preserves f (ret a).
Proof. intros w. reflexivity. Qed.

Lemma preserves_bind {A B X} (f : World -> X) (op : M A) (k : A -> M B) :
  preserves f op -> (forall a, preserves f (k a)) -> preserves f (bind op k).
Proof.
  intros Hop Hk w. unfold after, bind.
  specialize (Hop w). unfold after in Hop.
  destruct (op w) as [a w1]. simpl in Hop. rewrite <- Hop. apply Hk.
Qed.

Lemma log_daily_goals_db_awards_nothing user_id day gh th a wl cc :
  preserves awarded (log_daily_goals_db user_id day gh th a wl cc).
Proof. intros [d c [|[|] fs]]; reflexivity. Qed.

Lemma update_user_streak_awards_nothing today user_id streak_broken :
  preserves awarded (update_user_streak today user_id streak_broken).
Proof.
  unfold update_user_streak. apply preserves_bind.
  - intros [d c [|[|] fs]]; reflexivity.
  - intros [u|]; [|apply preserves_ret].
    destruct streak_broken; intros [d c [|[|] fs]]; reflexivity.
Qed.

Lemma add_penalty_awards_nothing today user_id amount reason :
  preserves awarded (add_penalty today user_id amount reason).
Proof. intros [d c [|[|] fs]]; destruct amount, reason; reflexivity. Qed.

Lemma log_daily_goals_awards_nothing today user_id gh th a wl :
  preserves awarded (log_daily_goals today user_id gh th a wl).
Proof.
  unfold log_daily_goals. apply preserves_bind.
  - apply log_daily_goals_db_awards_nothing.
  - intros [|]; [|apply preserves_ret].
    destruct (goals_met gh th a wl).
    + apply preserves_bind; [apply update_user_streak_awards_nothing|].
      intros _. apply preserves_ret.
    + apply preserves_bind; [apply update_user_streak_awards_nothing|].
      intros _. apply preserves_bind; [apply add_penalty_awards_nothing|].
      intros _. apply preserves_ret.
Qed.

(** C8 on the code.  [log_daily_goals], the check-in of the API, never
    writes an achievement.  [checkin_page] does check the milestones, but
    after calling [update_user_streak] a second time (the pair returned
    by [log_daily_goals] is always true), so from a fresh user it reads
    the streaks 2, 4, ..., 14 on seven passing days: "Week Warrior" is
    never created and the streak stands at 14; the first milestone it
    meets is 30, on the fifteenth day.  By either path seven passing
    days award nothing. *)
Theorem seven_pass_days_award_nothing :
  (forall today user_id german_hours tech_hours applications_sent words_learned w,
     achievements (tables (after (log_daily_goals today user_id german_hours
                                    tech_hours applications_sent words_learned) w)) =
     achievements (tables w)) /\
  (let w' := after (consecutive_days (fun day => checkin_page day 1 2 3 5 50) 7 100)
               fresh_world in
   achievements (tables w') = [] /\
   Users.current_streak <$> users (tables w') !! 1 = Some 14) /\
  (let w' := after (consecutive_days (fun day => log_daily_goals day 1 2 3 5 50) 7 100)
               fresh_world in
   achievements (tables w') = [] /\
   Users.current_streak <$> users (tables w') !! 1 = Some 7) /\
  (let w' := after (consecutive_days (fun day => checkin_page day 1 2 3 5 50) 15 100)
               fresh_world in
   achievements (tables w') = [Achievements.mk 1 1 "Monthly Master" 114]).
Proof.
  split; [|split; [|split]].
  - intros. apply (log_daily_goals_awards_nothing today user_id german_hours
                     tech_hours applications_sent words_learned w).
  - vm_compute. split; reflexivity.
  - vm_compute. split; reflexivity.
  - vm_compute. reflexivity.
Qed.

(** * Further properties of the engine *)

(** ** The daily record store *)

Lemma run_log_daily_goals_db_upserted user_id day gh th a wl cc d c :
  log_daily_goals_db user_id day gh th a wl cc (mkWorld d c []) =
  let d' := mkDB (users d) (upserted user_id day gh th a wl cc (daily_goals d))
              (achievements d) (penalties d) in
  (true, mkWorld d' (d' :: c) []).
Proof. reflexivity. Qed.

Lemma same_day_true user_id day r :
  same_day user_id day r = true <->
  DailyGoals.user_id r = user_id /\ DailyGoals.date_ r = day.
Proof. unfold same_day. rewrite andb_true_iff, !Z.eqb_eq. tauto. Qed.

Lemma same_day_new_row user_id day i gh th a wl cc :
  same_day user_id day (DailyGoals.mk i user_id day gh th a wl cc) = true.
Proof. apply same_day_true. split; reflexivity. Qed.

Section Upsert.
Variables (user_id : Z) (day : date) (gh th : Q) (a wl cc : Z).

Let overwrite (r : DailyGoals.row) : DailyGoals.row :=
  if same_day user_id day r
  then DailyGoals.mk (DailyGoals.id r) (DailyGoals.user_id r)
         (DailyGoals.date_ r) gh th a wl cc
  else r.

Lemma overwrite_same_day u' d' r :
  same_day u' d' (overwrite r) = same_day u' d' r.
Proof. unfold overwrite. destruct (same_day user_id day r); reflexivity. Qed.

Lemma filter_overwrite u' d' rows :
  filter (fun r => same_day u' d' r = true) (map overwrite rows) =
  map overwrite (filter (fun r => same_day u' d' r = true) rows).
Proof.
  induction rows as [|r rows IH]; [reflexivity|]. simpl.
  destruct (decide (same_day u' d' r = true)) as [Hr|Hr].
  - rewrite (filter_cons_True _ (overwrite r)) by (now rewrite overwrite_same_day).
    rewrite (filter_cons_True _ r) by exact Hr. simpl. now rewrite IH.
  - rewrite (filter_cons_False _ (overwrite r)) by (now rewrite overwrite_same_day).
    rewrite (filter_cons_False _ r) by exact Hr. exact IH.
Qed.

Lemma overwrite_other_day u' d' rows :
  (u', d') <> (user_id, day) ->
  map overwrite (filter (fun r => same_day u' d' r = true) rows) =
  filter (fun r => same_day u' d' r = true) rows.
Proof.
  intros Hne. induction rows as [|r rows IH]; [reflexivity|].
  destruct (decide (same_day u' d' r = true)) as [Hr|Hr].
  - rewrite filter_cons_True by exact Hr. simpl. rewrite IH. f_equal.
    unfold overwrite. destruct (same_day user_id day r) eqn:Hs; [|reflexivity].
    apply same_day_true in Hr. apply same_day_true in Hs.
    destruct Hr as [<- <-], Hs as [Hu Hd]. congruence.
  - rewrite filter_cons_False by exact Hr. exact IH.
Qed.

Lemma day_rows_upserted u' d' rows :
  filter (fun r => same_day u' d' r = true) (upserted user_id day gh th a wl cc rows) =
  match filter (fun r => same_day user_id day r = true) rows with
  | [] =>
      filter (fun r => same_day u' d' r = true) rows ++
      (if same_day u' d' (DailyGoals.mk (next_rowid (map DailyGoals.id rows))
                            user_id day gh th a wl cc)
       then [DailyGoals.mk (next_rowid (map DailyGoals.id rows))
               user_id day gh th a wl cc]
       else [])
  | _ :: _ => map overwrite (filter (fun r => same_day u' d' r = true) rows)
  end.
Proof.
  unfold upserted.
  destruct (filter (fun r => same_day user_id day r = true) rows) as [|r0 rs] eqn:Hf;
    simpl.
  - rewrite filter_app. f_equal.
    destruct (same_day u' d' _) eqn:Hs.
    + now rewrite filter_cons_True.
    + rewrite filter_cons_False; [reflexivity|]. now rewrite Hs.
  - apply filter_overwrite.
Qed.
End Upsert.

Lemma completion_upserted user_id day gh th a wl cc rows :
  match head (filter (fun r => same_day user_id day r = true)
                (upserted user_id day gh th a wl cc rows)) with
  | Some r => DailyGoals.checkin_completed r =? 1
  | None => false
  end = (cc =? 1).
Proof.
  rewrite day_rows_upserted.
  destruct (filter (fun r => same_day user_id day r = true) rows) as [|r0 rs] eqn:Hfil.
  - rewrite same_day_new_row. reflexivity.
  - simpl.
    assert (Hr0 : same_day user_id day r0 = true).
    { assert (Hin : r0 ∈ filter (fun r => same_day user_id day r = true) rows)
        by (rewrite Hfil; left).
      apply list_elem_of_filter in Hin. tauto. }
    rewrite Hr0. reflexivity.
Qed.

(** X1. Upsert, then lookup: after [log_daily_goals_db] has stored a record
    for a user and a date on an available store, whatever the table held
    before, [get_daily_goal_completion_status] for that user and date
    answers whether the stored flag is 1. *)
Theorem upsert_then_completion_status user_id day gh th a wl cc w :
  faults w = [] ->
  result (exec log_daily_goals_db user_id day gh th a wl cc ;;
          get_daily_goal_completion_status user_id day) w = (cc =? 1).
Proof.
  intros Hf. destruct w as [d c f]. simpl in Hf. subst f.
  unfold result, bind. rewrite run_log_daily_goals_db_upserted. cbv beta iota zeta.
  unfold get_daily_goal_completion_status, bind, store_fault, query, ret.
  cbn [faults tables daily_goals fst].
  apply completion_upserted.
Qed.

Lemma upsert_then_completion_status_witness :
  result (exec log_daily_goals_db 1 100 2 3 5 50 1 ;;
          get_daily_goal_completion_status 1 100) fresh_world = true.
Proof.
  apply (upsert_then_completion_status 1 100 2 3 5 50 1 fresh_world). reflexivity.
Defined.

Lemma upserted_one_row_per_day user_id day gh th a wl cc d :
  one_row_per_day d ->
  let d' := mkDB (users d) (upserted user_id day gh th a wl cc (daily_goals d))
              (achievements d) (penalties d) in
  one_row_per_day d' /\ length (day_rows user_id day d') = 1%nat.
Proof.
  intros Hd d'. subst d'. unfold one_row_per_day, day_rows in *. simpl.
  pose proof (Hd user_id day) as Hme.
  split.
  - intros u' d'. rewrite day_rows_upserted.
    destruct (filter (fun r => same_day user_id day r = true) (daily_goals d))
      as [|r0 rs] eqn:Hfil.
    + rewrite length_app.
      destruct (same_day u' d' _) eqn:Hs.
      * apply same_day_true in Hs. simpl in Hs. destruct Hs as [<- <-].
        rewrite Hfil. simpl. lia.
      * simpl. specialize (Hd u' d'). lia.
    + rewrite length_map. apply Hd.
  - rewrite day_rows_upserted.
    destruct (filter (fun r => same_day user_id day r = true) (daily_goals d))
      as [|r0 rs] eqn:Hfil.
    + rewrite same_day_new_row. reflexivity.
    + rewrite length_map. simpl in *. lia.
Qed.

(** X2. [log_daily_goals_db] keeps the table at one record per (user, date):
    if no pair has two records before the call, none has after it,
    whether or not the store answers; and once an available store has
    answered, the pair written has exactly one. *)
Theorem upsert_keeps_one_row_per_day user_id day gh th a wl cc w :
  one_row_per_day (tables w) ->
  one_row_per_day (tables (after (log_daily_goals_db user_id day gh th a wl cc) w)) /\
  (faults w = [] ->
   length (day_rows user_id day
             (tables (after (log_daily_goals_db user_id day gh th a wl cc) w))) = 1%nat).
Proof.
  intros Hone. destruct w as [d c f]. simpl in Hone. split.
  - destruct f as [|[|] fs]; [|exact Hone|];
      apply (upserted_one_row_per_day user_id day gh th a wl cc d Hone).
  - simpl. intros ->.
    apply (upserted_one_row_per_day user_id day gh th a wl cc d Hone).
Qed.

Lemma upsert_keeps_one_row_per_day_witness :
  one_row_per_day (tables (after (log_daily_goals_db 1 100 2 3 5 50 1) fresh_world)) /\
  (faults fresh_world = [] ->
   length (day_rows 1 100
             (tables (after (log_daily_goals_db 1 100 2 3 5 50 1) fresh_world))) = 1%nat).
Proof.
  apply (upsert_keeps_one_row_per_day 1 100 2 3 5 50 1 fresh_world).
  intros u' d'. simpl. lia.
Defined.

(** X3. A second submission replaces, it does not accumulate: after
    [log_daily_goals_db] on an available store every record of that user
    and date carries the metrics and the flag just written, and the
    records of every other (user, date) are exactly what they were. *)
Theorem upsert_overwrites_only_that_day user_id day gh th a wl cc w :
  faults w = [] ->
  let w' := after (log_daily_goals_db user_id day gh th a wl cc) w in
  Forall (fun r =>
            DailyGoals.german_hours r = gh /\ DailyGoals.tech_hours r = th /\
            DailyGoals.applications_sent r = a /\ DailyGoals.words_learned r = wl /\
            DailyGoals.checkin_completed r = cc)
         (day_rows user_id day (tables w')) /\
  (forall u' d', (u', d') <> (user_id, day) ->
     day_rows u' d' (tables w') = day_rows u' d' (tables w)).
Proof.
  intros Hf w'. subst w'. destruct w as [d c f]. simpl in Hf. subst f.
  unfold after. rewrite run_log_daily_goals_db_upserted. cbv zeta.
  unfold day_rows. cbn [snd tables daily_goals]. split.
  - rewrite day_rows_upserted.
    destruct (filter (fun r => same_day user_id day r = true) (daily_goals d))
      as [|r0 rs] eqn:Hfil.
    + rewrite same_day_new_row. simpl.
      constructor; [repeat split|constructor].
    + rewrite Forall_fmap. apply Forall_forall. intros r Hr. simpl.
      assert (Hs : same_day user_id day r = true).
      { assert (Hin : r ∈ filter (fun r => same_day user_id day r = true) (daily_goals d))
          by (rewrite Hfil; exact Hr).
        apply list_elem_of_filter in Hin. tauto. }
      rewrite Hs. repeat split.
  - intros u' d' Hne. rewrite day_rows_upserted.
    destruct (filter (fun r => same_day user_id day r = true) (daily_goals d))
      as [|r0 rs] eqn:Hfil.
    + destruct (same_day u' d' _) eqn:Hs.
      * apply same_day_true in Hs. simpl in Hs. destruct Hs as [<- <-]. congruence.
      * apply app_nil_r.
    + apply overwrite_other_day. exact Hne.
Qed.

Lemma upsert_overwrites_only_that_day_witness :
  Forall (fun r =>
            DailyGoals.german_hours r = 2%Q /\ DailyGoals.tech_hours r = 3%Q /\
            DailyGoals.applications_sent r = 5 /\ DailyGoals.words_learned r = 50 /\
            DailyGoals.checkin_completed r = 1)
         (day_rows 1 100
            (tables (after (exec log_daily_goals_db 1 100 1 1 1 10 0 ;;
                            log_daily_goals_db 1 100 2 3 5 50 1) fresh_world))).
Proof.
  pose proof (upsert_overwrites_only_that_day 1 100 2 3 5 50 1
                (after (log_daily_goals_db 1 100 1 1 1 10 0) fresh_world)
                eq_refl) as [Hall _].
  exact Hall.
Defined.

(** ** Every request is a run of elementary writes for its user *)

Lemma alter_known (g : Users.row -> Users.row) user_id (m : gmap Z Users.row) u :
  m !! user_id = Some u -> alter g user_id m = <[user_id := g u]> m.
Proof.
  intros Hu. apply map_eq. intros i. destruct (decide (user_id = i)) as [->|Hne].
  - rewrite lookup_alter_eq, lookup_insert_eq, Hu. reflexivity.
  - rewrite lookup_alter_ne, lookup_insert_ne by done. reflexivity.
Qed.

Lemma alter_unknown (g : Users.row -> Users.row) user_id (m : gmap Z Users.row) :
  m !! user_id = None -> alter g user_id m = m.
Proof.
  intros Hu. apply map_eq. intros i. destruct (decide (user_id = i)) as [->|Hne].
  - rewrite lookup_alter_eq, Hu. reflexivity.
  - rewrite lookup_alter_ne by done. reflexivity.
Qed.

Lemma db_eta d : mkDB (users d) (daily_goals d) (achievements d) (penalties d) = d.
Proof. destruct d. reflexivity. Qed.

Lemma alter_step user_id d (g : Users.row -> Users.row) :
  (forall u, users d !! user_id = Some u -> row_step u (g u)) ->
  rtc (db_step user_id) d
    (mkDB (alter g user_id (users d)) (daily_goals d) (achievements d) (penalties d)).
Proof.
  intros Hg. destruct (users d !! user_id) as [u|] eqn:Hu.
  - rewrite (alter_known _ _ _ _ Hu). apply rtc_once.
    apply (step_user _ _ u); [exact Hu | apply Hg; reflexivity].
  - rewrite (alter_unknown _ _ _ Hu), db_eta. apply rtc_refl.
Qed.

Section WritesFor.
Variable user_id : Z.

Lemma writes_ret {A} (a : A) : writes_for user_id (ret a).
Proof. intros w. apply rtc_refl. Qed.

Lemma writes_bind {A B} (op : M A) (k : A -> M B) :
  writes_for user_id op -> (forall a, writes_for user_id (k a)) ->
  writes_for user_id (bind op k).
Proof.
  intros Hop Hk w. unfold after, bind. specialize (Hop w). unfold after in Hop.
  destruct (op w) as [a w1]. simpl in Hop.
  etrans; [exact Hop | apply Hk].
Qed.

Lemma writes_get_user : writes_for user_id (get_user user_id).
Proof. intros [d c [|[|] fs]]; apply rtc_refl. Qed.

Lemma writes_status day :
  writes_for user_id (get_daily_goal_completion_status user_id day).
Proof. intros [d c [|[|] fs]]; apply rtc_refl. Qed.

Lemma writes_log_daily_goals_db day gh th a wl cc :
  writes_for user_id (log_daily_goals_db user_id day gh th a wl cc).
Proof.
  intros [d c [|[|] fs]]; try apply rtc_refl; apply rtc_once;
    apply (step_goal user_id d day gh th a wl cc).
Qed.

Lemma writes_add_penalty today amount reason :
  writes_for user_id (add_penalty today user_id amount reason).
Proof.
  intros [d c f]. destruct amount as [x|], reason as [r|], f as [|[|] fs];
    try apply rtc_refl; apply rtc_once; apply (step_penalty user_id d x r today).
Qed.

Lemma writes_add_achievement today n :
  writes_for user_id (add_achievement today user_id n).
Proof.
  intros [d c f]. destruct n as [n|], f as [|[|] fs];
    try apply rtc_refl; apply rtc_once; apply (step_achievement user_id d n today).
Qed.

Lemma writes_unlock_app : writes_for user_id (unlock_app user_id).
Proof.
  intros [d c [|[|] fs]]; try apply rtc_refl; unfold after; simpl;
    apply alter_step; intros u _; unfold row_step; simpl;
    repeat split; try reflexivity; try lia; intros [x Hx]; discriminate.
Qed.

Lemma writes_reset_streak_and_unlock :
  writes_for user_id (reset_streak_and_unlock user_id).
Proof.
  intros [d c [|[|] fs]]; try apply rtc_refl; unfold after; simpl;
    apply alter_step; intros u _; unfold row_step; simpl;
    repeat split; try reflexivity; try lia; intros [x Hx]; discriminate.
Qed.

Lemma writes_update_user_streak today streak_broken :
  writes_for user_id (update_user_streak today user_id streak_broken).
Proof.
  intros [d c f]. unfold after, update_user_streak, bind, get_user, store_fault,
    query, ret.
  destruct f as [|[|] fs]; simpl; try apply rtc_refl;
    (destruct (users d !! user_id) as [u|] eqn:Hu; [|apply rtc_refl]);
    destruct streak_broken; simpl;
    try (destruct fs as [|[|] fs]; simpl; try apply rtc_refl);
    apply alter_step; intros u0 Hu0; rewrite Hu in Hu0; injection Hu0 as <-;
    unfold row_step; simpl; repeat split; try reflexivity; try lia;
    try (intros [x Hx]; discriminate).
Qed.

Lemma writes_log_daily_goals today gh th a wl :
  writes_for user_id (log_daily_goals today user_id gh th a wl).
Proof.
  unfold log_daily_goals. apply writes_bind; [apply writes_log_daily_goals_db|].
  intros [|]; [|apply writes_ret].
  destruct (goals_met gh th a wl).
  - apply writes_bind; [apply writes_update_user_streak|]. intros _. apply writes_ret.
  - apply writes_bind; [apply writes_update_user_streak|]. intros _.
    apply writes_bind; [apply writes_add_penalty|]. intros _. apply writes_ret.
Qed.

Lemma writes_checkin_page today gh th a wl :
  writes_for user_id (checkin_page today user_id gh th a wl).
Proof.
  unfold checkin_page. apply writes_bind; [apply writes_status|].
  intros [|]; [apply writes_ret|].
  match goal with |- context [if ?b then _ else _] => destruct b end.
  - apply writes_bind; [apply writes_log_daily_goals|]. intros logged.
    unfold truthy_pair.
    apply writes_bind; [apply writes_update_user_streak|]. intros _.
    apply writes_bind; [apply writes_get_user|]. intros [u|]; [|apply writes_ret].
    repeat match goal with |- context [if ?b then _ else _] => destruct b end;
      try apply writes_ret;
      (apply writes_bind; [apply writes_add_achievement|]; intros _; apply writes_ret).
  - apply writes_bind; [apply writes_update_user_streak|]. intros _.
    apply writes_bind; [apply writes_add_penalty|]. intros _. apply writes_ret.
Qed.

Lemma writes_log_daily_goals_call today args kwargs :
  (forall vs, bind_arguments log_daily_goals_params args kwargs = inr vs ->
              head vs = Some (PyInt user_id)) ->
  writes_for user_id (log_daily_goals_call today args kwargs).
Proof.
  intros Hhead. unfold log_daily_goals_call.
  destruct (bind_arguments log_daily_goals_params args kwargs) as [e|vs];
    [apply writes_ret|].
  specialize (Hhead vs eq_refl).
  destruct vs as [|[u|q] [|g [|t [|[a|qa] [|[wl|qwl] [|x vs]]]]]]; try apply writes_ret.
  simpl in Hhead. injection Hhead as ->.
  apply writes_bind; [apply writes_log_daily_goals|]. intros r. apply writes_ret.
Qed.

Lemma writes_lock_page_german_study today :
  writes_for user_id (lock_page_german_study today user_id).
Proof.
  unfold lock_page_german_study. apply writes_bind; [apply writes_get_user|].
  intros [u|]; [|apply writes_ret].
  apply writes_bind.
  - apply writes_log_daily_goals_call. intros vs Hvs. discriminate Hvs.
  - intros [r| |]; try apply writes_ret. unfold truthy_pair.
    apply writes_bind; [apply writes_unlock_app|]. intros _. apply writes_ret.
Qed.

Lemma writes_lock_page_applications today :
  writes_for user_id (lock_page_applications today user_id).
Proof.
  unfold lock_page_applications. apply writes_bind; [apply writes_get_user|].
  intros [u|]; [|apply writes_ret].
  apply writes_bind.
  - apply writes_log_daily_goals_call. intros vs Hvs. discriminate Hvs.
  - intros [r| |]; try apply writes_ret. unfold truthy_pair.
    apply writes_bind; [apply writes_unlock_app|]. intros _. apply writes_ret.
Qed.

Lemma writes_lock_page_pay today :
  writes_for user_id (lock_page_pay today user_id).
Proof.
  unfold lock_page_pay. apply writes_bind; [apply writes_get_user|].
  intros [u|]; [|apply writes_ret].
  apply writes_bind; [apply writes_add_penalty|].
  intros [|]; [|apply writes_ret].
  apply writes_bind; [apply writes_unlock_app|]. intros _. apply writes_ret.
Qed.

Lemma writes_emergency_unlock today :
  writes_for user_id (emergency_unlock_confirmed today user_id).
Proof.
  unfold emergency_unlock_confirmed.
  apply writes_bind; [apply writes_add_penalty|].
  intros [|]; [|apply writes_ret].
  apply writes_bind; [apply writes_reset_streak_and_unlock|]. intros _. apply writes_ret.
Qed.

Lemma writes_settings_page_emergency_unlock clicked today :
  writes_for user_id (settings_page_emergency_unlock clicked today user_id).
Proof.
  unfold settings_page_emergency_unlock.
  destruct (st_button EmergencyUnlockButton clicked); [|apply writes_ret].
  destruct (st_button ConfirmEmergencyUnlockButton clicked); [|apply writes_ret].
  apply writes_emergency_unlock.
Qed.
End WritesFor.

Lemma writes_handle e : writes_for (ev_user e) (handle e).
Proof.
  destruct e as [day user_id [data|gh th a wl| | | |clicked|]]; unfold handle; simpl.
  - apply writes_bind; [apply writes_log_daily_goals|]. intros _. apply writes_ret.
  - apply writes_checkin_page.
  - apply writes_bind; [apply writes_lock_page_german_study|]. intros _. apply writes_ret.
  - apply writes_bind; [apply writes_lock_page_applications|]. intros _. apply writes_ret.
  - apply writes_lock_page_pay.
  - apply writes_settings_page_emergency_unlock.
  - apply writes_emergency_unlock.
Qed.

(** ** Invariants of the tables under any history of requests *)

Lemma serve_steps history w :
  rtc (engine_step (fun i => i ∈ map ev_user history))
      (tables w) (tables (after (serve history) w)).
Proof.
  revert w. induction history as [|e history IH]; intros w; [apply rtc_refl|].
  unfold after. simpl. unfold bind.
  pose proof (writes_handle e w) as He. unfold after in He.
  destruct (handle e w) as [[] w1]. simpl in He.
  etrans.
  - eapply rtc_subrel; [|exact He].
    intros d d' Hstep. exists (ev_user e). split; [left|exact Hstep].
  - eapply rtc_subrel; [|apply IH].
    intros d d' (i & Hi & Hstep). exists i. split; [right; exact Hi|exact Hstep].
Qed.

Lemma next_rowid_above ids x : x ∈ ids -> x < next_rowid ids.
Proof.
  unfold next_rowid. induction ids as [|y ids IH]; intros Hx.
  - inversion Hx.
  - simpl. apply elem_of_cons in Hx. destruct Hx as [->|Hx]; [lia|].
    specialize (IH Hx). lia.
Qed.

Lemma NoDup_snoc_rowid ids : NoDup ids -> NoDup (ids ++ [next_rowid ids]).
Proof.
  intros Hnd. apply NoDup_app. split; [exact Hnd|]. split; [|apply NoDup_singleton].
  intros x Hx Hin. apply list_elem_of_singleton in Hin. subst x.
  apply next_rowid_above in Hx. lia.
Qed.

Lemma upserted_ids user_id day gh th a wl cc rows :
  NoDup (map DailyGoals.id rows) ->
  NoDup (map DailyGoals.id (upserted user_id day gh th a wl cc rows)).
Proof.
  intros Hnd. unfold upserted.
  destruct (head _) as [r0|].
  - rewrite map_map.
    erewrite map_ext; [exact Hnd|].
    intros r. simpl. destruct (same_day user_id day r); reflexivity.
  - rewrite map_app. simpl. apply NoDup_snoc_rowid. exact Hnd.
Qed.

Lemma upserted_user_days i user_id day gh th a wl cc rows :
  i <> user_id ->
  filter (fun r => DailyGoals.user_id r = i) (upserted user_id day gh th a wl cc rows) =
  filter (fun r => DailyGoals.user_id r = i) rows.
Proof.
  intros Hne. unfold upserted. destruct (head _) as [r0|].
  - clear r0. induction rows as [|r rows IH]; [reflexivity|]. simpl.
    destruct (same_day user_id day r) eqn:Hs.
    + apply same_day_true in Hs. destruct Hs as [Hu Hd].
      rewrite !filter_cons_False by (simpl; congruence). exact IH.
    + destruct (decide (DailyGoals.user_id r = i)) as [Hr|Hr].
      * rewrite !filter_cons_True by exact Hr. now rewrite IH.
      * rewrite !filter_cons_False by exact Hr. exact IH.
  - rewrite filter_app, filter_cons_False by (simpl; congruence).
    apply app_nil_r.
Qed.

Section StepInvariants.
Variable who : Z -> Prop.

Lemma steps_accounts d d' i :
  rtc (engine_step who) d d' ->
  match users d !! i with
  | Some u =>
      exists u', users d' !! i = Some u' /\
        Users.id u' = Users.id u /\ Users.email u' = Users.email u /\
        Users.name u' = Users.name u /\
        Users.money_at_risk u' = Users.money_at_risk u /\
        Users.total_streak u <= Users.total_streak u'
  | None => users d' !! i = None
  end.
Proof.
  induction 1 as [x|x y z (j & _ & Hstep) _ IH].
  - destruct (users x !! i) as [u|]; [|reflexivity].
    exists u. repeat split; reflexivity || lia.
  - assert (Hxy : match users x !! i with
                  | Some u => exists u', users y !! i = Some u' /\
                      Users.id u' = Users.id u /\ Users.email u' = Users.email u /\
                      Users.name u' = Users.name u /\
                      Users.money_at_risk u' = Users.money_at_risk u /\
                      Users.total_streak u <= Users.total_streak u'
                  | None => users y !! i = None
                  end).
    { destruct Hstep as [u u' Hu (Hid & Hem & Hnm & Hmo & Hts & _)| | |]; simpl;
        try (destruct (users x !! i) as [u0|]; [|reflexivity];
             exists u0; repeat split; reflexivity || lia).
      destruct (decide (j = i)) as [->|Hne].
      - rewrite Hu, lookup_insert_eq. exists u'. repeat split; assumption.
      - rewrite lookup_insert_ne by exact Hne.
        destruct (users x !! i) as [u0|]; [|reflexivity].
        exists u0. repeat split; reflexivity || lia. }
    destruct (users x !! i) as [u|].
    + destruct Hxy as (u1 & Hu1 & Hid & Hem & Hnm & Hmo & Hts).
      rewrite Hu1 in IH. cbv beta iota in IH. destruct IH as (u2 & Hu2 & Hid2 & Hem2 & Hnm2 & Hmo2 & Hts2).
      exists u2. repeat split; try congruence. lia.
    + rewrite Hxy in IH. exact IH.
Qed.

Lemma steps_streak_bounded d d' :
  rtc (engine_step who) d d' -> streak_bounded d -> streak_bounded d'.
Proof.
  induction 1 as [x|x y z (j & _ & Hstep) _ IH]; [tauto|].
  intros Hx. apply IH. clear IH.
  destruct Hstep as [u u' Hu (_ & _ & _ & _ & _ & Hb & _)| | |];
    try exact Hx.
  intros i u0. simpl. destruct (decide (j = i)) as [->|Hne].
  - rewrite lookup_insert_eq. intros [= <-]. apply Hb, (Hx i u Hu).
  - rewrite lookup_insert_ne by exact Hne. apply Hx.
Qed.

Lemma steps_lock_end_implies_locked d d' :
  rtc (engine_step who) d d' ->
  lock_end_implies_locked d -> lock_end_implies_locked d'.
Proof.
  induction 1 as [x|x y z (j & _ & Hstep) _ IH]; [tauto|].
  intros Hx. apply IH. clear IH.
  destruct Hstep as [u u' Hu (_ & _ & _ & _ & _ & _ & Hl)| | |];
    try exact Hx.
  intros i u0. simpl. destruct (decide (j = i)) as [->|Hne].
  - rewrite lookup_insert_eq. intros [= <-]. exact Hl.
  - rewrite lookup_insert_ne by exact Hne. apply Hx.
Qed.

Lemma steps_one_row_per_day d d' :
  rtc (engine_step who) d d' -> one_row_per_day d -> one_row_per_day d'.
Proof.
  induction 1 as [x|x y z (j & _ & Hstep) _ IH]; [tauto|].
  intros Hx. apply IH. clear IH.
  destruct Hstep as [u u' Hu _|day gh th a wl cc| |]; try exact Hx.
  apply (upserted_one_row_per_day j day gh th a wl cc x Hx).
Qed.

Lemma steps_rowids_distinct d d' :
  rtc (engine_step who) d d' -> rowids_distinct d -> rowids_distinct d'.
Proof.
  induction 1 as [x|x y z (j & _ & Hstep) _ IH]; [tauto|].
  intros (Hg & Ha & Hp). apply IH. clear IH.
  destruct Hstep as [u u' Hu _|day gh th a wl cc|n day|amount reason day];
    unfold rowids_distinct; simpl; repeat split; try assumption.
  - apply upserted_ids. exact Hg.
  - rewrite map_app. apply NoDup_snoc_rowid. exact Ha.
  - rewrite map_app. apply NoDup_snoc_rowid. exact Hp.
Qed.

Lemma steps_other_users d d' i :
  rtc (engine_step who) d d' ->
  ~ who i ->
  users d' !! i = users d !! i /\
  user_days i d' = user_days i d /\
  user_achievements i d' = user_achievements i d /\
  user_penalties i d' = user_penalties i d.
Proof.
  intros Hsteps Hi. induction Hsteps as [x|x y z (j & Hj & Hstep) _ IH]; [tauto|].
  assert (Hne : i <> j) by congruence.
  destruct IH as (Hu & Hd & Ha & Hp). rewrite Hu, Hd, Ha, Hp. clear Hu Hd Ha Hp.
  unfold user_days, user_achievements, user_penalties.
  destruct Hstep as [u u' Hu _|day gh th a wl cc|n day|amount reason day]; simpl.
  - rewrite lookup_insert_ne by congruence. tauto.
  - repeat split. apply upserted_user_days. exact Hne.
  - repeat split. rewrite filter_app, filter_cons_False by (simpl; congruence).
    apply app_nil_r.
  - repeat split. rewrite filter_app, filter_cons_False by (simpl; congruence).
    apply app_nil_r.
Qed.
End StepInvariants.

(** X18. Accounts survive.  Whatever requests are served, in whatever order,
    by whichever users, and whatever the store does, a user row is never
    deleted or created, keeps its id, email, name and money at risk, and
    its [total_streak] never decreases. *)
Theorem serve_keeps_accounts history w i :
  (forall u, users (tables w) !! i = Some u ->
     exists u', users (tables (after (serve history) w)) !! i = Some u' /\
       Users.id u' = Users.id u /\ Users.email u' = Users.email u /\
       Users.name u' = Users.name u /\
       Users.money_at_risk u' = Users.money_at_risk u /\
       Users.total_streak u <= Users.total_streak u') /\
  (users (tables w) !! i = None ->
   users (tables (after (serve history) w)) !! i = None).
Proof.
  pose proof (steps_accounts _ _ _ i (serve_steps history w)) as H.
  split.
  - intros u Hu. rewrite Hu in H. exact H.
  - intros Hu. rewrite Hu in H. exact H.
Qed.

Lemma serve_keeps_accounts_witness :
  exists u', users (tables (after (serve sample_history) two_users_world)) !! 1 = Some u' /\
    Users.id u' = 1 /\ Users.email u' = "user@example.com"%string /\
    Users.name u' = "User"%string /\ Users.money_at_risk u' = 100%Q /\
    0 <= Users.total_streak u'.
Proof.
  destruct (serve_keeps_accounts sample_history two_users_world 1) as [Hsome _].
  apply (Hsome (fresh_user 1)). reflexivity.
Defined.

(** X19. Streak bounds.  If every user starts with
    0 <= current_streak <= total_streak, this still holds after any
    history of requests, whatever the store does. *)
Theorem serve_keeps_streak_bounds history w :
  streak_bounded (tables w) ->
  streak_bounded (tables (after (serve history) w)).
Proof. apply steps_streak_bounded with (1 := serve_steps history w). Qed.

Lemma two_users_lookup i u :
  users (tables two_users_world) !! i = Some u ->
  u = fresh_user 1 \/
  u = Users.mk 2 "second@example.com" "Second" 12 5 (Some 100) 100 1 (Some 101).
Proof.
  simpl. intros H. apply lookup_insert_Some in H as [[_ <-]|[_ H]]; [right; reflexivity|].
  apply lookup_singleton_Some in H as [_ <-]. left. reflexivity.
Qed.

Lemma serve_keeps_streak_bounds_witness :
  streak_bounded (tables (after (serve sample_history) two_users_world)).
Proof.
  apply (serve_keeps_streak_bounds sample_history two_users_world).
  intros i u Hu. destruct (two_users_lookup i u Hu) as [-> | ->]; simpl; lia.
Defined.

(** X20. Lock shape.  The engine never leaves a lock end date on a user who
    is not flagged locked: if that holds of every user before, it holds
    after any history of requests, whatever the store does.  (The
    converse is not kept: a passing check-in leaves the flag without an
    end date.) *)
Theorem serve_keeps_lock_end_implies_locked history w :
  lock_end_implies_locked (tables w) ->
  lock_end_implies_locked (tables (after (serve history) w)).
Proof. apply steps_lock_end_implies_locked with (1 := serve_steps history w). Qed.

Lemma serve_keeps_lock_end_implies_locked_witness :
  lock_end_implies_locked (tables (after (serve sample_history) two_users_world)).
Proof.
  apply (serve_keeps_lock_end_implies_locked sample_history two_users_world).
  intros i u Hu Hend. destruct (two_users_lookup i u Hu) as [-> | ->];
    [destruct Hend as [x Hx]; discriminate Hx | reflexivity].
Defined.

(** X21. One record per day.  No history of requests, on any store, gives a
    user two daily records for one date, provided none had two before. *)
Theorem serve_keeps_one_row_per_day history w :
  one_row_per_day (tables w) ->
  one_row_per_day (tables (after (serve history) w)).
Proof. apply steps_one_row_per_day with (1 := serve_steps history w). Qed.

Lemma serve_keeps_one_row_per_day_witness :
  one_row_per_day (tables (after (serve sample_history) two_users_world)).
Proof.
  apply (serve_keeps_one_row_per_day sample_history two_users_world).
  intros u' d'. simpl. lia.
Defined.

(** X22. Rowids.  Every row the engine inserts gets a rowid no row of its
    table has: if the rowids of the daily records, of the achievements
    and of the penalties are pairwise distinct before, they are after any
    history of requests, whatever the store does. *)
Theorem serve_keeps_rowids_distinct history w :
  rowids_distinct (tables w) ->
  rowids_distinct (tables (after (serve history) w)).
Proof. apply steps_rowids_distinct with (1 := serve_steps history w). Qed.

Lemma serve_keeps_rowids_distinct_witness :
  rowids_distinct (tables (after (serve sample_history) two_users_world)).
Proof.
  apply (serve_keeps_rowids_distinct sample_history two_users_world).
  repeat split; apply NoDup_nil_2.
Defined.

(** X23. Isolation.  A user who makes none of the requests of a history is
    untouched by it, whatever the store does: the user row, the daily
    records, the achievements and the penalties of that user are exactly
    what they were. *)
Theorem serve_leaves_other_users history w i :
  i ∉ map ev_user history ->
  users (tables (after (serve history) w)) !! i = users (tables w) !! i /\
  user_days i (tables (after (serve history) w)) = user_days i (tables w) /\
  user_achievements i (tables (after (serve history) w)) =
    user_achievements i (tables w) /\
  user_penalties i (tables (after (serve history) w)) = user_penalties i (tables w).
Proof.
  intros Hi.
  apply (steps_other_users _ _ _ i (serve_steps history w)). exact Hi.
Qed.

Lemma serve_leaves_other_users_witness :
  users (tables (after (serve sample_history) two_users_world)) !! 2 =
    users (tables two_users_world) !! 2.
Proof.
  destruct (serve_leaves_other_users sample_history two_users_world 2) as [Hu _];
    [|exact Hu].
  vm_compute. intros Hin.
  repeat (apply elem_of_cons in Hin; destruct Hin as [Hin|Hin]; [discriminate Hin|]).
  inversion Hin.
Defined.

(** ** Check-in, completion and the form's guard *)

Lemma run_status user_id day d c :
  get_daily_goal_completion_status user_id day (mkWorld d c []) =
  (match head (day_rows user_id day d) with
   | Some r => DailyGoals.checkin_completed r =? 1
   | None => false
   end, mkWorld d c []).
Proof. reflexivity. Qed.

(** On an available store [update_user_streak] touches the user table
    only and leaves the store available. *)
Lemma run_update_user_streak_frame today user_id streak_broken d c :
  exists b us c',
    update_user_streak today user_id streak_broken (mkWorld d c []) =
    (b, mkWorld (mkDB us (daily_goals d) (achievements d) (penalties d)) c' []).
Proof.
  destruct (users d !! user_id) as [u|] eqn:Hu.
  - rewrite (run_update_user_streak _ _ _ _ _ _ Hu). cbv zeta. eauto.
  - unfold update_user_streak, bind. rewrite run_get_user, Hu.
    exists false, (users d), c. unfold ret. now rewrite db_eta.
Qed.

(** X4. Check-in, then ask: on an available store,
    [check_daily_completion] right after [log_daily_goals] for the same
    user and date answers the verdict of the metrics just logged, whether
    or not the user exists and whatever was recorded for that date
    before. *)
Theorem completion_after_log_daily_goals today user_id gh th a wl w :
  faults w = [] ->
  result (exec log_daily_goals today user_id gh th a wl ;;
          check_daily_completion today user_id) w =
  goals_met gh th a wl.
Proof.
  intros Hf. destruct w as [d c f]. simpl in Hf. subst f.
  unfold result, bind at 1, log_daily_goals, bind.
  rewrite run_log_daily_goals_db_upserted. cbv beta iota zeta.
  destruct (goals_met gh th a wl) eqn:Hmet.
  - match goal with |- context [update_user_streak ?t ?u ?b (mkWorld ?d1 ?c1 [])] =>
      destruct (run_update_user_streak_frame t u b d1 c1) as (b1 & us & c' & ->)
    end.
    cbn [daily_goals achievements penalties]. unfold ret, check_daily_completion.
    rewrite run_status. unfold day_rows. cbn [fst daily_goals].
    apply completion_upserted.
  - match goal with |- context [update_user_streak ?t ?u ?b (mkWorld ?d1 ?c1 [])] =>
      destruct (run_update_user_streak_frame t u b d1 c1) as (b1 & us & c' & ->)
    end.
    cbn [daily_goals achievements penalties]. unfold add_penalty.
    rewrite run_add_penalty_db. cbv beta iota zeta.
    unfold ret, check_daily_completion.
    rewrite run_status. unfold day_rows. cbn [fst daily_goals].
    apply completion_upserted.
Qed.

Lemma completion_after_log_daily_goals_witness :
  result (exec log_daily_goals 100 1 1 1 1 1 ;;
          check_daily_completion 100 1) fresh_world = false.
Proof.
  apply (completion_after_log_daily_goals 100 1 1 1 1 1 fresh_world). reflexivity.
Defined.

(** The guard of [checkin_page]: a completed day is not submitted again. *)
Lemma checkin_page_guarded today user_id gh th a wl d c :
  fst (get_daily_goal_completion_status user_id today (mkWorld d c [])) = true ->
  checkin_page today user_id gh th a wl (mkWorld d c []) = (tt, mkWorld d c []).
Proof.
  intros Hdone. unfold checkin_page, check_daily_completion, bind.
  rewrite run_status in *. simpl in Hdone. rewrite Hdone. reflexivity.
Qed.

(** A passing form on an available store, for a known user whose day
    is not completed yet. *)
Lemma run_checkin_page_pass today user_id gh th a wl d c u :
  users d !! user_id = Some u ->
  fst (get_daily_goal_completion_status user_id today (mkWorld d c [])) = false ->
  goals_met gh th a wl = true ->
  exists c',
    checkin_page today user_id gh th a wl (mkWorld d c []) =
    (tt, mkWorld
           (mkDB (<[user_id := pass_row today (pass_row today u)]> (users d))
              (upserted user_id today gh th a wl 1 (daily_goals d))
              (achievements d ++
               match milestone (Users.current_streak u + 2) with
               | Some n =>
                   [Achievements.mk (next_rowid (map Achievements.id (achievements d)))
                      user_id n today]
               | None => []
               end)
              (penalties d))
           c' []).
Proof.
  intros Hu Hdone Hmet.
  unfold checkin_page, check_daily_completion, bind at 1.
  rewrite run_status in *. simpl in Hdone. rewrite Hdone.
  change (Qle_bool 2 gh && Qle_bool 3 th && (5 <=? a) && (50 <=? wl))
    with (goals_met gh th a wl). rewrite Hmet.
  unfold bind at 1. unfold log_daily_goals, bind at 1.
  rewrite run_log_daily_goals_db_upserted. cbv beta iota zeta. rewrite Hmet.
  unfold bind at 1.
  rewrite (run_update_user_streak today user_id false _ _ u) by exact Hu.
  cbv beta iota zeta. unfold ret at 1. unfold truthy_pair.
  unfold bind at 1.
  rewrite (run_update_user_streak today user_id false _ _ (pass_row today u))
    by (cbn [users]; apply lookup_insert_eq).
  cbv beta iota zeta. cbn [users daily_goals achievements penalties].
  rewrite insert_insert_eq.
  unfold bind at 1. rewrite run_get_user. cbn [users]. rewrite lookup_insert_eq.
  cbn [Users.current_streak pass_row].
  replace (Users.current_streak u + 1 + 1) with (Users.current_streak u + 2) by lia.
  unfold milestone.
  destruct (Users.current_streak u + 2 =? 7);
    [|destruct (Users.current_streak u + 2 =? 30);
      [|destruct (Users.current_streak u + 2 =? 100);
        [|destruct (Users.current_streak u + 2 =? 365)]]];
    try (unfold bind, add_achievement; rewrite run_add_achievement_db;
         cbv beta iota zeta; unfold ret; eexists; reflexivity).
  unfold ret. rewrite app_nil_r. eexists. reflexivity.
Qed.

(** X5. The check-in form counts a passing day twice.  For a known user on
    an available store whose day is not completed yet, one passing
    submission through [checkin_page] adds 2 to [current_streak] and to
    [total_streak], and the milestone looked up is the one of the streak
    after both increments: an achievement row is appended exactly when
    current_streak + 2 is 7, 30, 100 or 365. *)
Theorem checkin_page_pass_counts_twice today user_id gh th a wl w u :
  faults w = [] ->
  users (tables w) !! user_id = Some u ->
  result (check_daily_completion today user_id) w = false ->
  goals_met gh th a wl = true ->
  let w' := after (checkin_page today user_id gh th a wl) w in
  (exists u',
     users (tables w') !! user_id = Some u' /\
     Users.current_streak u' = Users.current_streak u + 2 /\
     Users.total_streak u' = Users.total_streak u + 2) /\
  achievements (tables w') =
    achievements (tables w) ++
    match milestone (Users.current_streak u + 2) with
    | Some n =>
        [Achievements.mk (next_rowid (map Achievements.id (achievements (tables w))))
           user_id n today]
    | None => []
    end.
Proof.
  intros Hf Hu Hdone Hmet w'. subst w'. destruct w as [d c f].
  simpl in Hf, Hu. subst f.
  destruct (run_checkin_page_pass today user_id gh th a wl d c u Hu Hdone Hmet)
    as [c' Hrun].
  unfold after. rewrite Hrun. cbn [snd tables users achievements]. split.
  - exists (pass_row today (pass_row today u)). rewrite lookup_insert_eq.
    simpl. repeat split; lia.
  - reflexivity.
Qed.

Lemma checkin_page_pass_counts_twice_witness :
  (exists u',
     users (tables (after (checkin_page 101 1 2 3 5 50) locked_world)) !! 1 = Some u' /\
     Users.current_streak u' = 7 /\
     Users.total_streak u' = 14) /\
  achievements (tables (after (checkin_page 101 1 2 3 5 50) locked_world)) =
    [Achievements.mk 1 1 "Week Warrior" 101].
Proof.
  apply (checkin_page_pass_counts_twice 101 1 2 3 5 50 locked_world locked_user);
    reflexivity.
Defined.

(** X6. The form's guard.  After a passing submission through [checkin_page]
    for a known user on an available store, a further submission on the
    same date, with any metrics, changes nothing: no table is written and
    no commit is made. *)
Theorem checkin_page_second_submission_ignored today user_id gh th a wl
    gh' th' a' wl' w u :
  faults w = [] ->
  users (tables w) !! user_id = Some u ->
  goals_met gh th a wl = true ->
  let w1 := after (checkin_page today user_id gh th a wl) w in
  after (checkin_page today user_id gh' th' a' wl') w1 = w1.
Proof.
  intros Hf Hu Hmet w1. subst w1. destruct w as [d c f].
  simpl in Hf, Hu. subst f. unfold after.
  destruct (fst (get_daily_goal_completion_status user_id today (mkWorld d c [])))
    eqn:Hdone.
  - rewrite (checkin_page_guarded _ _ gh th a wl _ _ Hdone). cbn [snd].
    rewrite (checkin_page_guarded _ _ gh' th' a' wl' _ _ Hdone). reflexivity.
  - destruct (run_checkin_page_pass today user_id gh th a wl d c u Hu Hdone Hmet)
      as [c' ->]. cbn [snd].
    rewrite checkin_page_guarded; [reflexivity|].
    rewrite run_status. unfold day_rows. cbn [fst daily_goals].
    apply completion_upserted.
Qed.

Lemma checkin_page_second_submission_ignored_witness :
  after (checkin_page 100 1 1 1 1 10)
    (after (checkin_page 100 1 2 3 5 50) fresh_world) =
  after (checkin_page 100 1 2 3 5 50) fresh_world.
Proof.
  apply (checkin_page_second_submission_ignored 100 1 2 3 5 50 1 1 1 10
           fresh_world (fresh_user 1)); reflexivity.
Defined.

Lemma run_checkin_page_fail today user_id gh th a wl d c u :
  users d !! user_id = Some u ->
  fst (get_daily_goal_completion_status user_id today (mkWorld d c [])) = false ->
  goals_met gh th a wl = false ->
  exists c',
    checkin_page today user_id gh th a wl (mkWorld d c []) =
    (tt, mkWorld
           (mkDB (<[user_id := fail_row today u]> (users d)) (daily_goals d)
              (achievements d)
              (penalties d ++
               [Penalties.mk (next_rowid (map Penalties.id (penalties d)))
                  user_id 10 "Daily goals not met" today 0]))
           c' []).
Proof.
  intros Hu Hdone Hmet.
  unfold checkin_page, check_daily_completion, bind at 1.
  rewrite run_status in *. simpl in Hdone. rewrite Hdone.
  change (Qle_bool 2 gh && Qle_bool 3 th && (5 <=? a) && (50 <=? wl))
    with (goals_met gh th a wl). rewrite Hmet.
  unfold bind at 1.
  rewrite (run_update_user_streak today user_id true _ _ u) by exact Hu.
  cbv beta iota zeta. unfold bind, add_penalty. rewrite run_add_penalty_db.
  cbv beta iota zeta. unfold ret. eexists. reflexivity.
Qed.

(** X7. A failed form is not recorded.  For a known user on an available
    store whose day is not completed, a failing submission through
    [checkin_page] applies the Fail transition and appends the 10.0
    penalty but writes no daily record: the day stays open, so each
    further failing submission is charged again. *)
Theorem checkin_page_fail_not_recorded today user_id gh th a wl w u :
  faults w = [] ->
  users (tables w) !! user_id = Some u ->
  result (check_daily_completion today user_id) w = false ->
  goals_met gh th a wl = false ->
  let w' := after (checkin_page today user_id gh th a wl) w in
  daily_goals (tables w') = daily_goals (tables w) /\
  users (tables w') !! user_id = Some (fail_row today u) /\
  penalties (tables w') =
    penalties (tables w) ++
    [Penalties.mk (next_rowid (map Penalties.id (penalties (tables w))))
       user_id 10 "Daily goals not met" today 0] /\
  result (check_daily_completion today user_id) w' = false /\
  faults w' = [].
Proof.
  intros Hf Hu Hdone Hmet w'. subst w'. destruct w as [d c f].
  simpl in Hf, Hu. subst f.
  destruct (run_checkin_page_fail today user_id gh th a wl d c u Hu Hdone Hmet)
    as [c' Hrun].
  unfold after. rewrite Hrun. cbn [snd tables daily_goals users penalties faults].
  rewrite lookup_insert_eq. repeat split.
  unfold result, check_daily_completion in *. rewrite run_status in *.
  unfold day_rows in *. cbn [fst daily_goals] in *. exact Hdone.
Qed.

Lemma checkin_page_fail_not_recorded_witness :
  let w' := after (exec checkin_page 100 1 1 1 1 10 ;; checkin_page 100 1 1 1 1 10)
              fresh_world in
  daily_goals (tables w') = [] /\
  penalties (tables w') =
    [Penalties.mk 1 1 10 "Daily goals not met" 100 0;
     Penalties.mk 2 1 10 "Daily goals not met" 100 0].
Proof.
  pose proof (checkin_page_fail_not_recorded 100 1 1 1 1 10 fresh_world (fresh_user 1)
                eq_refl eq_refl eq_refl eq_refl) as (Hd1 & Hu1 & Hp1 & Hs1 & Hf1).
  pose proof (checkin_page_fail_not_recorded 100 1 1 1 1 10
                (after (checkin_page 100 1 1 1 1 10) fresh_world)
                (fail_row 100 (fresh_user 1)) Hf1 Hu1 Hs1 eq_refl)
    as (Hd2 & _ & Hp2 & _).
  split.
  - etrans; [exact Hd2|exact Hd1].
  - etrans; [exact Hp2|]. rewrite Hp1. reflexivity.
Defined.

(** ** Streaks over several days, and the gate *)

(** X8. Passing days add up.  For a known user on an available store, [n]
    passing check-ins through [log_daily_goals] on [n] consecutive days
    add exactly [n] to [current_streak] and to [total_streak]. *)
Theorem consecutive_passes_add_up user_id gh th a wl n first w u :
  faults w = [] ->
  users (tables w) !! user_id = Some u ->
  goals_met gh th a wl = true ->
  exists u',
    users (tables (after (consecutive_days
                            (fun day => log_daily_goals day user_id gh th a wl)
                            n first) w)) !! user_id = Some u' /\
    Users.current_streak u' = Users.current_streak u + Z.of_nat n /\
    Users.total_streak u' = Users.total_streak u + Z.of_nat n.
Proof.
  intros Hf Hu Hmet. destruct w as [d c f]. simpl in Hf, Hu. subst f.
  revert first d c u Hu. induction n as [|n IH]; intros first d c u Hu.
  - exists u. simpl. split; [exact Hu|]. lia.
  - destruct (run_log_daily_goals first user_id gh th a wl d c u Hu)
      as (rows & c' & Hrun). rewrite Hmet in Hrun.
    unfold after. cbn [consecutive_days]. unfold bind at 1. rewrite Hrun.
    match goal with |- context [consecutive_days _ n _ (mkWorld ?d1 ?c1 [])] =>
      destruct (IH (first + 1) d1 c1 (pass_row first u)) as (u' & Hu' & Hcs & Hts);
        [apply lookup_insert_eq|]
    end.
    exists u'. split; [exact Hu'|]. simpl in Hcs, Hts. lia.
Qed.

Lemma consecutive_passes_add_up_witness :
  exists u',
    users (tables (after (consecutive_days
                            (fun day => log_daily_goals day 1 2 3 5 50)
                            30 100) fresh_world)) !! 1 = Some u' /\
    Users.current_streak u' = 30 /\
    Users.total_streak u' = 30.
Proof.
  apply (consecutive_passes_add_up 1 2 3 5 50 30 100 fresh_world (fresh_user 1));
    reflexivity.
Defined.

(** X9. The gate after a check-in.  For a known user on an available store,
    after [log_daily_goals] on day [today] the lock check of the
    dashboard shows the lock screen on a day [day] exactly when the goals
    were not met and [day] is before [today + 1]: a failed day locks
    until the next calendar day and the lock lapses then without any
    write; a passed day opens the gate on every day, locked flag or
    not. *)
Theorem gate_after_check_in today user_id gh th a wl w u :
  faults w = [] ->
  users (tables w) !! user_id = Some u ->
  exists u',
    users (tables (after (log_daily_goals today user_id gh th a wl) w)) !! user_id =
      Some u' /\
    forall day,
      dashboard_page_locked day u' =
      negb (goals_met gh th a wl) && (day <? today + 1).
Proof.
  intros Hf Hu. destruct w as [d c f]. simpl in Hf, Hu. subst f.
  destruct (run_log_daily_goals today user_id gh th a wl d c u Hu)
    as (rows & c' & Hrun).
  unfold after. rewrite Hrun.
  destruct (goals_met gh th a wl); cbn [snd tables users];
    rewrite lookup_insert_eq; eexists; (split; [reflexivity|]); intros day.
  - unfold dashboard_page_locked. simpl. apply andb_false_r.
  - reflexivity.
Qed.

Lemma gate_after_check_in_witness :
  exists u',
    users (tables (after (log_daily_goals 100 1 1 1 1 10) fresh_world)) !! 1 = Some u' /\
    forall day, dashboard_page_locked day u' = (day <? 101).
Proof.
  apply (gate_after_check_in 100 1 1 1 1 10 fresh_world (fresh_user 1)); reflexivity.
Defined.

(** X10. The paid redemption.  For a known user on an available store,
    "Pay $20" appends exactly one penalty (20.0, "Redemption payment",
    dated today), clears [is_locked] and [lock_end_date], and leaves both
    streak counters and [last_checkin] as they were; the dashboard no
    longer shows the lock screen on any day. *)
Theorem pay_redemption_unlocks today user_id w u :
  faults w = [] ->
  users (tables w) !! user_id = Some u ->
  let w' := after (lock_page_pay today user_id) w in
  penalties (tables w') =
    penalties (tables w) ++
    [Penalties.mk (next_rowid (map Penalties.id (penalties (tables w))))
       user_id 20 "Redemption payment" today 0] /\
  exists u',
    users (tables w') !! user_id = Some u' /\
    Users.is_locked u' = 0 /\ Users.lock_end_date u' = None /\
    Users.current_streak u' = Users.current_streak u /\
    Users.total_streak u' = Users.total_streak u /\
    Users.last_checkin u' = Users.last_checkin u /\
    forall day, dashboard_page_locked day u' = false.
Proof.
  intros Hf Hu w'. subst w'. destruct w as [d c f]. simpl in Hf, Hu. subst f.
  unfold after, lock_page_pay, bind. rewrite run_get_user, Hu.
  unfold add_penalty. rewrite run_add_penalty_db. cbv beta iota zeta.
  unfold unlock_app. rewrite run_unlock_app_db. cbv beta iota zeta.
  unfold ret. cbn [snd tables users penalties]. split; [reflexivity|].
  rewrite lookup_alter_eq, Hu. eexists. split; [reflexivity|]. repeat split.
Qed.

Lemma pay_redemption_unlocks_witness :
  penalties (tables (after (lock_page_pay 100 1) locked_world)) =
    [Penalties.mk 1 1 20 "Redemption payment" 100 0] /\
  exists u',
    users (tables (after (lock_page_pay 100 1) locked_world)) !! 1 = Some u' /\
    Users.is_locked u' = 0 /\ Users.lock_end_date u' = None /\
    Users.current_streak u' = 5 /\
    Users.total_streak u' = 12 /\
    Users.last_checkin u' = Some 100 /\
    forall day, dashboard_page_locked day u' = false.
Proof.
  apply (pay_redemption_unlocks 100 1 locked_world locked_user); reflexivity.
Defined.

(** ** Unknown users and failing stores *)

(** X14. A check-in for an id with no user row is accepted.  On an available
    store [log_daily_goals] still reports the verdict of the metrics and,
    on a failed verdict, still appends the 10.0 penalty under that id;
    the user table is left as it was. *)
Theorem check_in_for_unknown_user today user_id gh th a wl w :
  faults w = [] ->
  users (tables w) !! user_id = None ->
  let w' := after (log_daily_goals today user_id gh th a wl) w in
  fst (result (log_daily_goals today user_id gh th a wl) w) = goals_met gh th a wl /\
  users (tables w') = users (tables w) /\
  penalties (tables w') =
    penalties (tables w) ++
    (if goals_met gh th a wl then []
     else [Penalties.mk (next_rowid (map Penalties.id (penalties (tables w))))
             user_id 10 "Daily goals not met" today 0]).
Proof.
  intros Hf Hu w'. subst w'. destruct w as [d c f]. simpl in Hf, Hu. subst f.
  unfold result, after, log_daily_goals, bind.
  rewrite run_log_daily_goals_db_upserted. cbv beta iota zeta.
  destruct (goals_met gh th a wl); cbv beta iota;
    unfold update_user_streak, bind; rewrite run_get_user; cbn [users]; rewrite Hu.
  - unfold ret. cbn. rewrite app_nil_r. repeat split.
  - unfold ret at 1. unfold add_penalty. rewrite run_add_penalty_db.
    cbv beta iota zeta. unfold ret. cbn. repeat split.
Qed.

Lemma check_in_for_unknown_user_witness :
  fst (result (log_daily_goals 100 7 1 1 1 10) fresh_world) = false /\
  users (tables (after (log_daily_goals 100 7 1 1 1 10) fresh_world)) =
    users (tables fresh_world) /\
  penalties (tables (after (log_daily_goals 100 7 1 1 1 10) fresh_world)) =
    [Penalties.mk 1 7 10 "Daily goals not met" 100 0].
Proof.
  apply (check_in_for_unknown_user 100 7 1 1 1 10 fresh_world); reflexivity.
Defined.

(** X15. Unlocking an unknown user.  On an available store [unlock_app] and
    [reset_streak_and_unlock] for an id with no user row return True
    although no row is updated: the tables are unchanged. *)
Theorem unlock_unknown_user_reports_success user_id w :
  faults w = [] ->
  users (tables w) !! user_id = None ->
  result (unlock_app user_id) w = true /\
  tables (after (unlock_app user_id) w) = tables w /\
  result (reset_streak_and_unlock user_id) w = true /\
  tables (after (reset_streak_and_unlock user_id) w) = tables w.
Proof.
  intros Hf Hu. destruct w as [d c f]. simpl in Hf, Hu. subst f.
  unfold result, after, unlock_app, reset_streak_and_unlock.
  rewrite run_unlock_app_db, run_reset_streak_and_unlock_db. cbv zeta.
  cbn [fst snd tables]. rewrite !(alter_unknown _ _ _ Hu), db_eta. repeat split.
Qed.

Lemma unlock_unknown_user_reports_success_witness :
  result (unlock_app 7) fresh_world = true /\
  tables (after (unlock_app 7) fresh_world) = tables fresh_world /\
  result (reset_streak_and_unlock 7) fresh_world = true /\
  tables (after (reset_streak_and_unlock 7) fresh_world) = tables fresh_world.
Proof.
  apply (unlock_unknown_user_reports_success 7 fresh_world); reflexivity.
Defined.

(** X16. The store is down.  When the first database call of
    [log_daily_goals] fails, it returns (False, "Failed to log daily
    goals."), whatever the metrics, makes no further database call and
    writes nothing. *)
Theorem log_daily_goals_store_down today user_id gh th a wl w fs :
  faults w = true :: fs ->
  result (log_daily_goals today user_id gh th a wl) w =
    (false, "Failed to log daily goals."%string) /\
  after (log_daily_goals today user_id gh th a wl) w =
    mkWorld (tables w) (commits w) fs.
Proof.
  intros Hf. destruct w as [d c f]. simpl in Hf. subst f. split; reflexivity.
Qed.

Lemma log_daily_goals_store_down_witness :
  result (log_daily_goals 100 1 2 3 5 50) (mkWorld fresh_db [] [true]) =
    (false, "Failed to log daily goals."%string) /\
  after (log_daily_goals 100 1 2 3 5 50) (mkWorld fresh_db [] [true]) =
    mkWorld fresh_db [] [].
Proof.
  apply (log_daily_goals_store_down 100 1 2 3 5 50 (mkWorld fresh_db [] [true]) []).
  reflexivity.
Defined.

(** X17. A lost streak update goes unreported.  When the daily record is
    stored but the store fails on the next call, [log_daily_goals] with
    passing metrics still returns (True, "Daily goals completed!"): the
    day is recorded as completed while no user row is changed. *)
Theorem log_daily_goals_hides_streak_failure today user_id gh th a wl w fs :
  faults w = false :: true :: fs ->
  goals_met gh th a wl = true ->
  let w' := after (log_daily_goals today user_id gh th a wl) w in
  result (log_daily_goals today user_id gh th a wl) w =
    (true, "Daily goals completed!"%string) /\
  users (tables w') = users (tables w) /\
  daily_goals (tables w') = upserted user_id today gh th a wl 1 (daily_goals (tables w)).
Proof.
  intros Hf Hmet w'. subst w'. destruct w as [d c f]. simpl in Hf. subst f.
  unfold result, after, log_daily_goals. rewrite Hmet. repeat split.
Qed.

Lemma log_daily_goals_hides_streak_failure_witness :
  result (log_daily_goals 100 1 2 3 5 50) (mkWorld fresh_db [] [false; true]) =
    (true, "Daily goals completed!"%string) /\
  users (tables (after (log_daily_goals 100 1 2 3 5 50)
                   (mkWorld fresh_db [] [false; true]))) = users fresh_db.
Proof.
  destruct (log_daily_goals_hides_streak_failure 100 1 2 3 5 50
              (mkWorld fresh_db [] [false; true]) [] eq_refl eq_refl)
    as (Hres & Husers & _).
  split; [exact Hres | exact Husers].
Defined.

(** ** The read side *)

Section OrderBy.
Context {A : Type} (key : A -> date).

Lemma insert_desc_perm x l : insert_desc key x l ≡ₚ x :: l.
Proof.
  induction l as [|y l IH]; [reflexivity|]. simpl.
  destruct (key y <=? key x); [reflexivity|].
  rewrite IH. apply Permutation_swap.
Qed.

Lemma order_by_desc_perm l : order_by_desc key l ≡ₚ l.
Proof.
  induction l as [|x l IH]; [reflexivity|].
  unfold order_by_desc in *. simpl. rewrite insert_desc_perm, IH. reflexivity.
Qed.

Lemma insert_desc_descending x l :
  descending key l -> descending key (insert_desc key x l).
Proof.
  unfold descending. induction l as [|y l IH]; intros Hl; simpl.
  - constructor; constructor.
  - inversion Hl as [|? ? Hl' Hy]; subst.
    destruct (key y <=? key x) eqn:Hle.
    + apply Z.leb_le in Hle. constructor; [exact Hl|].
      constructor; [exact Hle|].
      eapply Forall_impl; [exact Hy|]. simpl. intros z Hz. lia.
    + apply Z.leb_gt in Hle. constructor; [apply IH; exact Hl'|].
      rewrite insert_desc_perm. constructor; [lia|exact Hy].
Qed.

Lemma order_by_desc_descending l : descending key (order_by_desc key l).
Proof.
  induction l as [|x l IH]; [constructor|].
  unfold order_by_desc in *. simpl. apply insert_desc_descending. exact IH.
Qed.

Lemma descending_split l1 l2 x y :
  descending key (l1 ++ l2) -> x ∈ l1 -> y ∈ l2 -> key y <= key x.
Proof.
  unfold descending. induction l1 as [|z l1 IH]; intros Hs Hx Hy.
  - inversion Hx.
  - simpl in Hs. inversion Hs as [|? ? Hs' Hz]; subst.
    apply elem_of_cons in Hx. destruct Hx as [->|Hx].
    + apply (proj1 (Forall_forall _ _) Hz). apply elem_of_app. right. exact Hy.
    + apply IH; assumption.
Qed.

Lemma descending_take n l : descending key l -> descending key (take n l).
Proof.
  unfold descending. revert n. induction l as [|x l IH]; intros [|n] Hl; simpl;
    try constructor.
  - inversion Hl; subst. apply IH. assumption.
  - inversion Hl as [|? ? _ Hx]; subst.
    apply Forall_forall. intros z Hz. apply (proj1 (Forall_forall _ _) Hx).
    eapply subseteq_take. exact Hz.
Qed.
End OrderBy.

Lemma descending_map {A B} (f : A -> B) (keyA : A -> date) (keyB : B -> date) l :
  (forall x, keyB (f x) = keyA x) ->
  descending keyA l -> descending keyB (map f l).
Proof.
  intros Hkey. unfold descending. induction 1 as [|x l Hl IH Hx]; simpl; constructor.
  - exact IH.
  - apply Forall_forall. intros y Hy.
    apply list_elem_of_In, in_map_iff in Hy. destruct Hy as (z & <- & Hz).
    rewrite !Hkey. apply (proj1 (Forall_forall _ _) Hx), list_elem_of_In, Hz.
Qed.

(** X24. The listings.  On an available store [get_user_penalties] returns
    exactly the unpaid penalties of the user, each once, and
    [get_user_achievements] exactly the user's achievements, both in
    descending date order. *)
Theorem listings_are_complete_and_ordered user_id w :
  faults w = [] ->
  (result (get_user_penalties user_id) w ≡ₚ
     map (fun r => (Penalties.amount r, Penalties.reason r, Penalties.date_ r))
       (filter (fun r => Penalties.user_id r = user_id /\ Penalties.paid r = 0)
          (penalties (tables w))) /\
   descending snd (result (get_user_penalties user_id) w)) /\
  (result (get_user_achievements user_id) w ≡ₚ
     map (fun r => (Achievements.achievement_name r, Achievements.date_earned r))
       (user_achievements user_id (tables w)) /\
   descending snd (result (get_user_achievements user_id) w)).
Proof.
  intros Hf. destruct w as [d c f]. simpl in Hf. subst f.
  unfold result, get_user_penalties, get_user_achievements, bind, store_fault,
    query, ret. cbn [faults fst tables]. split; split.
  - apply Permutation_map, order_by_desc_perm.
  - apply (descending_map _ Penalties.date_); [reflexivity|].
    apply order_by_desc_descending.
  - apply Permutation_map, order_by_desc_perm.
  - apply (descending_map _ Achievements.date_earned); [reflexivity|].
    apply order_by_desc_descending.
Qed.

Lemma listings_are_complete_and_ordered_witness :
  result (get_user_penalties 1)
    (after (exec add_penalty 100 1 (Some 10%Q) (Some "Daily goals not met"%string) ;;
            add_penalty 101 1 (Some 50%Q) (Some "Emergency unlock"%string))
       fresh_world) ≡ₚ
  [(10%Q, "Daily goals not met"%string, 100); (50%Q, "Emergency unlock"%string, 101)].
Proof.
  destruct (listings_are_complete_and_ordered 1
              (after (exec add_penalty 100 1 (Some 10%Q) (Some "Daily goals not met"%string) ;;
                      add_penalty 101 1 (Some 50%Q) (Some "Emergency unlock"%string))
                 fresh_world) eq_refl) as [[Hperm _] _].
  exact Hperm.
Defined.

(** X25. A recorded penalty is listed.  On an available store, right after
    [add_penalty] the user's penalty list holds the new penalty (amount,
    reason, today) and is one entry longer than before. *)
Theorem added_penalty_is_listed today user_id amount reason w :
  faults w = [] ->
  (amount, reason, today) ∈
    result (exec add_penalty today user_id (Some amount) (Some reason) ;;
            get_user_penalties_list user_id) w /\
  length (result (exec add_penalty today user_id (Some amount) (Some reason) ;;
                  get_user_penalties_list user_id) w) =
    S (length (result (get_user_penalties_list user_id) w)).
Proof.
  intros Hf. destruct w as [d c f]. simpl in Hf. subst f.
  unfold result, bind, add_penalty. rewrite run_add_penalty_db. cbv beta iota zeta.
  unfold get_user_penalties_list, get_user_penalties, bind, store_fault, query, ret.
  cbn [faults fst tables penalties].
  rewrite filter_app, filter_cons_True by (simpl; auto).
  rewrite filter_nil. split.
  - apply list_elem_of_In, in_map_iff. eexists. split; [|apply list_elem_of_In].
    2:{ rewrite order_by_desc_perm. apply elem_of_app. right. left. }
    reflexivity.
  - rewrite !length_map.
    rewrite (Permutation_length (order_by_desc_perm _ _)), length_app.
    rewrite (Permutation_length (order_by_desc_perm _ _)). simpl. lia.
Qed.

Lemma added_penalty_is_listed_witness :
  (20%Q, "Redemption payment"%string, 100) ∈
    result (exec add_penalty 100 1 (Some 20%Q) (Some "Redemption payment"%string) ;;
            get_user_penalties_list 1) fresh_world.
Proof.
  destruct (added_penalty_is_listed 100 1 20%Q "Redemption payment"%string
              fresh_world eq_refl) as [Hin _].
  exact Hin.
Defined.

(** X26. The activity history.  On an available store [get_streak_data]
    returns at most 30 daily records, all of the user, in descending date
    order, and they are the newest: a record of the user that is not
    returned is no newer than any that is.  With 30 records or fewer,
    all are returned. *)
Theorem streak_data_is_the_newest_thirty user_id w :
  faults w = [] ->
  let shown := result (get_streak_data user_id) w in
  (length shown <= 30)%nat /\
  descending activity_date shown /\
  (forall x, x ∈ shown ->
     exists r, r ∈ user_days user_id (tables w) /\ x = activity_columns r) /\
  (forall r, r ∈ user_days user_id (tables w) ->
     activity_columns r ∈ shown \/
     forall x, x ∈ shown -> DailyGoals.date_ r <= activity_date x) /\
  ((length (user_days user_id (tables w)) <= 30)%nat ->
   shown ≡ₚ map activity_columns (user_days user_id (tables w))).
Proof.
  intros Hf shown. subst shown. destruct w as [d c f]. simpl in Hf. subst f.
  unfold result, get_streak_data, bind, store_fault, query, ret.
  cbn [faults fst tables]. fold (user_days user_id d).
  set (s := order_by_desc DailyGoals.date_ (user_days user_id d)).
  assert (Hperm : s ≡ₚ user_days user_id d) by apply order_by_desc_perm.
  assert (Hsorted : descending DailyGoals.date_ s) by apply order_by_desc_descending.
  split; [|split; [|split; [|split]]].
  - rewrite length_map, length_take. lia.
  - apply (descending_map _ DailyGoals.date_); [intros r; reflexivity|].
    apply descending_take. exact Hsorted.
  - intros x Hx. apply list_elem_of_In, in_map_iff in Hx.
    destruct Hx as (r & <- & Hr). exists r. split; [|reflexivity].
    rewrite <- Hperm. apply list_elem_of_In in Hr.
    eapply subseteq_take. exact Hr.
  - intros r Hr. rewrite <- Hperm in Hr.
    rewrite <- (take_drop 30 s) in Hr. apply elem_of_app in Hr.
    destruct Hr as [Hr|Hr].
    + left. apply list_elem_of_In, in_map_iff. exists r.
      split; [reflexivity|apply list_elem_of_In; exact Hr].
    + right. intros x Hx. apply list_elem_of_In, in_map_iff in Hx.
      destruct Hx as (r' & <- & Hr'). apply list_elem_of_In in Hr'.
      change (activity_date (activity_columns r')) with (DailyGoals.date_ r').
      apply (descending_split DailyGoals.date_ (take 30 s) (drop 30 s));
        [rewrite take_drop; exact Hsorted | exact Hr' | exact Hr].
  - intros Hlen. rewrite take_ge.
    + apply Permutation_map. exact Hperm.
    + rewrite (Permutation_length Hperm). exact Hlen.
Qed.

Lemma streak_data_is_the_newest_thirty_witness :
  let w := after (consecutive_days (fun day => log_daily_goals day 1 2 3 5 50) 40 100)
             fresh_world in
  let shown := result (get_streak_data 1) w in
  (length shown <= 30)%nat /\ descending activity_date shown.
Proof.
  destruct (streak_data_is_the_newest_thirty 1
              (after (consecutive_days (fun day => log_daily_goals day 1 2 3 5 50) 40 100)
                 fresh_world) eq_refl) as (Hlen & Hdesc & _).
  split; [exact Hlen | exact Hdesc].
Defined.

(** ** Registration *)

Lemma email_taken_iff email d :
  email_taken email d = true <->
  exists i u, users d !! i = Some u /\ Users.email u = email.
Proof.
  unfold email_taken. rewrite existsb_exists. split.
  - intros ([i u] & Hin & Heq). simpl in Heq. apply String.eqb_eq in Heq.
    exists i, u. split; [|exact Heq].
    apply elem_of_map_to_list, list_elem_of_In. exact Hin.
  - intros (i & u & Hu & Heq). exists (i, u). split.
    + apply list_elem_of_In, elem_of_map_to_list. exact Hu.
    + simpl. apply String.eqb_eq. exact Heq.
Qed.

Lemma next_user_id_fresh (m : gmap Z Users.row) :
  m !! next_rowid (map fst (map_to_list m)) = None.
Proof.
  destruct (m !! next_rowid (map fst (map_to_list m))) as [u|] eqn:Hu; [|reflexivity].
  apply elem_of_map_to_list in Hu.
  assert (Hin : next_rowid (map fst (map_to_list m)) ∈ map fst (map_to_list m)).
  { apply list_elem_of_In, in_map_iff. eexists. split; [|apply list_elem_of_In, Hu].
    reflexivity. }
  apply next_rowid_above in Hin. lia.
Qed.

(** X27. Registration.  On an available store [create_user_db] with an email
    no user holds returns an id that no user had, and adds under it a
    row with both streaks 0, not locked, no lock end and no check-in; the
    rows of the existing users and the other tables are unchanged. *)
Theorem create_user_db_registers email password_hash name start_date money key w :
  faults w = [] ->
  (forall i u, users (tables w) !! i = Some u -> Users.email u <> email) ->
  let w' := after (create_user_db email password_hash name start_date money key) w in
  exists user_id,
    result (create_user_db email password_hash name start_date money key) w =
      Some user_id /\
    users (tables w) !! user_id = None /\
    users (tables w') =
      <[user_id := Users.mk user_id email name 0 0 None money 0 None]> (users (tables w)) /\
    daily_goals (tables w') = daily_goals (tables w) /\
    achievements (tables w') = achievements (tables w) /\
    penalties (tables w') = penalties (tables w).
Proof.
  intros Hf Hfree w'. subst w'. destruct w as [d c f]. simpl in Hf, Hfree. subst f.
  assert (Hnot : email_taken email d = false).
  { apply not_true_is_false. rewrite email_taken_iff.
    intros (i & u & Hu & Heq). exact (Hfree i u Hu Heq). }
  unfold result, after, create_user_db, bind, store_fault, query, commit, ret.
  cbn [faults tables fst snd]. rewrite Hnot. cbn [fst snd tables users daily_goals
    achievements penalties].
  eexists. split; [reflexivity|]. split; [apply next_user_id_fresh|]. repeat split.
Qed.

Lemma create_user_db_registers_witness :
  exists user_id,
    result (create_user_db "new@example.com" "hash" "New" 100 50 None) fresh_world =
      Some user_id /\
    users (tables fresh_world) !! user_id = None /\
    users (tables (after (create_user_db "new@example.com" "hash" "New" 100 50 None)
                     fresh_world)) =
      <[user_id := Users.mk user_id "new@example.com" "New" 0 0 None 50 0 None]>
        (users (tables fresh_world)) /\
    daily_goals (tables (after (create_user_db "new@example.com" "hash" "New" 100 50 None)
                           fresh_world)) = [] /\
    achievements (tables (after (create_user_db "new@example.com" "hash" "New" 100 50 None)
                            fresh_world)) = [] /\
    penalties (tables (after (create_user_db "new@example.com" "hash" "New" 100 50 None)
                         fresh_world)) = [].
Proof.
  apply (create_user_db_registers "new@example.com" "hash" "New" 100 50 None fresh_world).
  - reflexivity.
  - intros i u Hu. simpl in Hu. apply lookup_singleton_Some in Hu as [_ <-].
    discriminate.
Defined.

(** X28. A taken email.  [create_user_db] with an email some user already
    holds returns None and writes nothing, whatever the store does. *)
Theorem create_user_db_rejects_taken_email email password_hash name start_date
    money key w i u :
  users (tables w) !! i = Some u ->
  Users.email u = email ->
  result (create_user_db email password_hash name start_date money key) w = None /\
  tables (after (create_user_db email password_hash name start_date money key) w) =
    tables w /\
  commits (after (create_user_db email password_hash name start_date money key) w) =
    commits w.
Proof.
  intros Hu Heq. destruct w as [d c f]. simpl in Hu.
  assert (Htaken : email_taken email d = true)
    by (apply email_taken_iff; eauto).
  unfold result, after, create_user_db, bind, store_fault, query, commit, ret.
  destruct f as [|[|] fs]; cbn [faults tables fst snd]; rewrite ?Htaken; repeat split.
Qed.

Lemma create_user_db_rejects_taken_email_witness :
  result (create_user_db "user@example.com" "hash" "Again" 100 0 None) fresh_world = None /\
  tables (after (create_user_db "user@example.com" "hash" "Again" 100 0 None) fresh_world) =
    tables fresh_world /\
  commits (after (create_user_db "user@example.com" "hash" "Again" 100 0 None) fresh_world) =
    commits fresh_world.
Proof.
  apply (create_user_db_rejects_taken_email "user@example.com" "hash" "Again" 100 0 None
           fresh_world 1 (fresh_user 1)); reflexivity.
Defined.

(** X29. Emails stay unique.  If no two users share an email, none do after
    [create_user_db], whatever its arguments and whatever the store
    does. *)
Theorem create_user_db_keeps_emails_unique email password_hash name start_date
    money key w :
  unique_emails (tables w) ->
  unique_emails
    (tables (after (create_user_db email password_hash name start_date money key) w)).
Proof.
  intros Huniq. destruct w as [d c f]. simpl in Huniq.
  unfold after, create_user_db, bind, store_fault, query, commit, ret.
  destruct f as [|[|] fs]; cbn [faults tables fst snd]; try exact Huniq;
    (destruct (email_taken email d) eqn:Htaken; [exact Huniq|]);
    cbn [fst snd tables];
    (assert (Hfree : forall i u, users d !! i = Some u -> Users.email u <> email)
       by (intros i u Hu Heq;
           assert (email_taken email d = true) by (apply email_taken_iff; eauto);
           congruence));
    intros i j u v Hi Hj Heq; cbn [users] in Hi, Hj;
    apply lookup_insert_Some in Hi as [[<- <-]|[Hni Hi]];
    apply lookup_insert_Some in Hj as [[<- <-]|[Hnj Hj]];
    try reflexivity; simpl in Heq;
    try (exfalso; eapply Hfree; eauto; fail);
    try (exfalso; eapply Hfree; [exact Hi|]; congruence);
    eapply Huniq; eauto.
Qed.

Lemma fresh_db_unique_emails : unique_emails fresh_db.
Proof.
  intros i j u v Hi Hj _. simpl in Hi, Hj.
  apply lookup_singleton_Some in Hi as [<- _].
  apply lookup_singleton_Some in Hj as [<- _]. reflexivity.
Qed.

Lemma create_user_db_keeps_emails_unique_witness :
  unique_emails
    (tables (after (create_user_db "new@example.com" "hash" "New" 100 50 None)
               fresh_world)).
Proof.
  apply (create_user_db_keeps_emails_unique "new@example.com" "hash" "New" 100 50 None
           fresh_world).
  exact fresh_db_unique_emails.
Defined.

(** X30. The first day.  On an available store, a user registered by
    [create_user_db] whose first check-in passes has both streaks at 1,
    is not locked, and has no penalty. *)
Theorem first_check_in_after_registration email password_hash name start_date
    money key today gh th a wl w user_id :
  faults w = [] ->
  (forall i u, users (tables w) !! i = Some u -> Users.email u <> email) ->
  result (create_user_db email password_hash name start_date money key) w =
    Some user_id ->
  goals_met gh th a wl = true ->
  let w' := after (exec create_user_db email password_hash name start_date money key ;;
                   log_daily_goals today user_id gh th a wl) w in
  users (tables w') !! user_id =
    Some (Users.mk user_id email name 1 1 (Some today) money 0 None) /\
  user_penalties user_id (tables w') = user_penalties user_id (tables w).
Proof.
  intros Hf Hfree Hres Hmet w'. subst w'. destruct w as [d c f].
  simpl in Hf, Hfree. subst f.
  assert (Hnot : email_taken email d = false).
  { apply not_true_is_false. rewrite email_taken_iff.
    intros (i & u & Hu & Heq). exact (Hfree i u Hu Heq). }
  revert Hres.
  unfold result, after, bind at 1, create_user_db, bind, store_fault, query, commit, ret.
  cbn [faults tables fst snd]. rewrite Hnot. cbn [fst snd faults tables commits].
  intros [= <-].
  match goal with |- context [log_daily_goals _ ?i _ _ _ _ (mkWorld ?d1 ?c1 [])] =>
    destruct (run_log_daily_goals today i gh th a wl d1 c1
                (Users.mk i email name 0 0 None money 0 None))
      as (rows & c' & Hrun); [apply lookup_insert_eq|]
  end.
  rewrite Hmet in Hrun. rewrite Hrun. cbn [snd tables users penalties].
  rewrite lookup_insert_eq. split; reflexivity.
Qed.

Lemma first_check_in_after_registration_witness :
  users (tables (after (exec create_user_db "new@example.com" "hash" "New" 100 50 None ;;
                        log_daily_goals 100 2 2 3 5 50) fresh_world)) !! 2 =
    Some (Users.mk 2 "new@example.com" "New" 1 1 (Some 100) 50 0 None).
Proof.
  assert (Hfree : forall i u, users (tables fresh_world) !! i = Some u ->
                          Users.email u <> "new@example.com"%string).
  { intros i u Hu. simpl in Hu. apply lookup_singleton_Some in Hu as [_ <-].
    discriminate. }
  exact (proj1 (first_check_in_after_registration "new@example.com" "hash" "New" 100 50
                  None 100 2 3 5 50 fresh_world 2 eq_refl Hfree eq_refl eq_refl)).
Defined.

(** ** Witnesses for the lock-screen facts *)

Lemma unlock_app_clears_lock_witness :
  result (unlock_app 1) locked_world = true /\
  exists u',
    users (tables (after (unlock_app 1) locked_world)) !! 1 = Some u' /\
    Users.is_locked u' = 0 /\
    Users.lock_end_date u' = None /\
    Users.current_streak u' = 5 /\
    Users.total_streak u' = 12.
Proof.
  apply (unlock_app_clears_lock 1 locked_world locked_user); reflexivity.
Defined.

Lemma applications_redemption_raises_witness :
  result (lock_page_applications 100 1) locked_world =
    Raised (TypeError (UnexpectedKeyword "checkin_completed")) /\
  after (lock_page_applications 100 1) locked_world = locked_world.
Proof.
  apply (applications_redemption_raises 100 1 locked_world locked_user); reflexivity.
Defined.
